(** * BMS Tools integration for Home Assistant: a verification development

    A shallow embedding of the integration's own code (sensor.py,
    binary_sensor.py, switch.py, __init__.py, config_flow.py) together with
    the fragment of Python's run-time semantics that this code relies on
    (dictionaries that raise [KeyError], true division, [round], binary64
    floating point, exceptions, [try]/[finally]). *)

From Stdlib Require Import ZArith List Bool Lia.
From Stdlib Require Import Floats.SpecFloat.
From stdpp Require Import gmap strings pretty.

Open Scope Z_scope.

(* ===================================================================== *)
(** * Exceptions and outcomes                                             *)
(* ===================================================================== *)

(** The exception classes that occur in the integration: the Python
    built-ins raised by subscripting and arithmetic, [BMSError] of the device
    client library, [SerialException] of the serial library and
    [UpdateFailed] of the host's update coordinator; [ValueError] of the
    serial library for a port that is neither a string nor [None], and
    [UnboundLocalError] for a local variable that is read before it was
    assigned. *)
Inductive exn :=
| KeyError (key : string)
| TypeError
| ZeroDivisionError
| OverflowError
| BMSError
| SerialException (errno : Z)
| UpdateFailed (msg : string)
| ValueError
| UnboundLocalError (name : string).

(** A Python call either returns a value or raises. *)
Inductive outcome (A : Type) :=
| Return (a : A)
| Raise (e : exn).
Arguments Return {A} a.
Arguments Raise {A} e.

Definition obind {A B} (o : outcome A) (k : A -> outcome B) : outcome B :=
  match o with
  | Return a => k a
  | Raise e => Raise e
  end.

Declare Scope py_scope.
Delimit Scope py_scope with py.
Notation "x <- c ;; k" := (obind c (fun x => k))
  (at level 100, c at next level, right associativity) : py_scope.
Open Scope py_scope.

(* ===================================================================== *)
(** * Python numbers                                                      *)
(* ===================================================================== *)

(** ** binary64 floats

    A Python [float] is an IEEE 754 binary64 number; the operations are those
    of the Standard Library's specification of floating point, at precision
    53 and maximal exponent 1024. *)
Module F64.

Definition prec : Z := 53.
Definition emax : Z := 1024.

Definition mul := SFmul prec emax.
Definition div := SFdiv prec emax.
Definition sub := SFsub prec emax.
Definition opp := SFopp.

Definition is_zero (f : spec_float) : bool :=
  match f with S754_zero _ => true | _ => false end.

Definition is_finite (f : spec_float) : bool :=
  match f with S754_zero _ | S754_finite _ _ _ => true | _ => false end.

(** An integer as an (unrounded) mantissa with exponent 0. *)
Definition exact_of_Z (z : Z) : spec_float :=
  match z with
  | Z0 => S754_zero false
  | Zpos p => S754_finite false p 0
  | Zneg p => S754_finite true p 0
  end.

(** [float(z)]: the nearest binary64 number, ties to even; an integer
    beyond the range of binary64 raises [OverflowError]. *)
Definition of_int (z : Z) : outcome spec_float :=
  match binary_normalize prec emax z 0 false with
  | S754_infinity _ => Raise OverflowError
  | f => Return f
  end.

(** Literals: small integers are exactly representable. *)
Definition lit (z : Z) : spec_float := binary_normalize prec emax z 0 false.

(** [a / b] on two Python ints: the correctly rounded quotient. *)
Definition int_truediv (a b : Z) : outcome spec_float :=
  if b =? 0 then Raise ZeroDivisionError
  else match div (exact_of_Z a) (exact_of_Z b) with
       | S754_infinity _ => Raise OverflowError
       | q => Return q
       end.

(** [x / y] on two Python floats. *)
Definition truediv (x y : spec_float) : outcome spec_float :=
  if is_zero y then Raise ZeroDivisionError else Return (div x y).

(** Exact comparison of a float with an integer (Python never rounds the
    integer for a comparison). *)
Definition compare_int (f : spec_float) (z : Z) : option comparison :=
  match f with
  | S754_nan => None
  | S754_infinity s => Some (if s then Lt else Gt)
  | S754_zero _ => Some (0 ?= z)
  | S754_finite s m e =>
      let sm := cond_Zopp s (Zpos m) in
      Some (if 0 <=? e then (sm * 2 ^ e ?= z) else (sm ?= z * 2 ^ (- e)))
  end.

(** Nearest integer to [num / den], ties to even ([0 <= num], [0 < den]). *)
Definition div_half_even (num den : Z) : Z :=
  let q := num / den in
  let r := num mod den in
  match 2 * r ?= den with
  | Lt => q
  | Gt => q + 1
  | Eq => if Z.even q then q else q + 1
  end.

(** [round(x, ndigits)] for [0 <= ndigits]: the exact binary value of [x]
    is rounded to [ndigits] decimal places, ties to even, and the decimal
    result is converted back to the nearest float. Zeros, infinities and
    NaN round to themselves. *)
Definition round (x : spec_float) (ndigits : nat) : spec_float :=
  match x with
  | S754_finite s m e =>
      let p10 := 10 ^ Z.of_nat ndigits in
      let k := if 0 <=? e
               then Zpos m * 2 ^ e * p10
               else div_half_even (Zpos m * p10) (2 ^ (- e)) in
      match k with
      | Zpos kp => div (S754_finite s kp 0) (exact_of_Z p10)
      | _ => S754_zero s
      end
  | _ => x
  end.

End F64.

(** ** Values held by a snapshot: bools, ints and floats. *)
Inductive pyval :=
| VBool (b : bool)
| VInt (z : Z)
| VFloat (f : spec_float).

(** The numeric tower: [bool] is a subclass of [int]. *)
Inductive num :=
| NInt (z : Z)
| NFloat (f : spec_float).

Definition as_num (v : pyval) : num :=
  match v with
  | VBool b => NInt (if b then 1 else 0)
  | VInt z => NInt z
  | VFloat f => NFloat f
  end.

(** [bool(v)]. *)
Definition py_truthy (v : pyval) : bool :=
  match v with
  | VBool b => b
  | VInt z => negb (z =? 0)
  | VFloat f => negb (F64.is_zero f)
  end.

(** [x / y]. *)
Definition py_truediv (x y : pyval) : outcome pyval :=
  match as_num x, as_num y with
  | NInt a, NInt b => q <- F64.int_truediv a b ;; Return (VFloat q)
  | NInt a, NFloat g =>
      f <- F64.of_int a ;; q <- F64.truediv f g ;; Return (VFloat q)
  | NFloat f, NInt b =>
      g <- F64.of_int b ;; q <- F64.truediv f g ;; Return (VFloat q)
  | NFloat f, NFloat g => q <- F64.truediv f g ;; Return (VFloat q)
  end.

(** A binary operator that is exact on ints and works on floats as soon as
    one operand is a float. *)
Definition py_arith (fi : Z -> Z -> Z) (ff : spec_float -> spec_float -> spec_float)
    (x y : pyval) : outcome pyval :=
  match as_num x, as_num y with
  | NInt a, NInt b => Return (VInt (fi a b))
  | NInt a, NFloat g => f <- F64.of_int a ;; Return (VFloat (ff f g))
  | NFloat f, NInt b => g <- F64.of_int b ;; Return (VFloat (ff f g))
  | NFloat f, NFloat g => Return (VFloat (ff f g))
  end.

(** [x * y] and [x - y]. *)
Definition py_mul : pyval -> pyval -> outcome pyval := py_arith Z.mul F64.mul.
Definition py_sub : pyval -> pyval -> outcome pyval := py_arith Z.sub F64.sub.

(** [-x]. *)
Definition py_neg (x : pyval) : pyval :=
  match as_num x with
  | NInt a => VInt (- a)
  | NFloat f => VFloat (F64.opp f)
  end.

(** Three-way comparison; [None] when a NaN is involved. *)
Definition py_compare (x y : pyval) : option comparison :=
  match as_num x, as_num y with
  | NInt a, NInt b => Some (a ?= b)
  | NFloat f, NFloat g => SFcompare f g
  | NFloat f, NInt b => F64.compare_int f b
  | NInt a, NFloat g => option_map CompOpp (F64.compare_int g a)
  end.

(** [x < y], [x > y], [x == y]. *)
Definition py_lt (x y : pyval) : bool :=
  match py_compare x y with Some Lt => true | _ => false end.
Definition py_gt (x y : pyval) : bool :=
  match py_compare x y with Some Gt => true | _ => false end.
Definition py_eq (x y : pyval) : bool :=
  match py_compare x y with Some Eq => true | _ => false end.

(** [max(x, y)]: the first argument unless the second is greater. *)
Definition py_max (x y : pyval) : pyval := if py_gt y x then y else x.

(** [round(x, ndigits)] with [0 <= ndigits]: an int is returned unchanged
    (a bool as the int it is), a float is rounded. *)
Definition py_round (x : pyval) (ndigits : nat) : pyval :=
  match as_num x with
  | NInt a => VInt a
  | NFloat f => VFloat (F64.round f ndigits)
  end.

(** [d[k]] on a dict: [KeyError] when the key is absent. *)
Definition getitem {V} (d : gmap string V) (k : string) : outcome V :=
  match d !! k with
  | Some v => Return v
  | None => Raise (KeyError k)
  end.

(* ===================================================================== *)
(** * The coordinator's snapshot (const.py, __init__.py)                  *)
(* ===================================================================== *)

(** [coordinator.data]: the dict built by [sync_update_data], with the two
    entries [COORDINATOR_DATA_BASIC_INFO] and [COORDINATOR_DATA_CELL_INFO],
    each the dict returned by the device client. *)
Record Snapshot := {
  basic_info : gmap string pyval;
  cell_info : gmap string pyval
}.

(* ===================================================================== *)
(** * Sensors (sensor.py, binary_sensor.py)                               *)
(* ===================================================================== *)

Module JBDBasicInfoSensor.

(* Constant *)
Definition FIRMWARE_VERSION : string := "version".
Definition BATTERY_CAPACITY : string := "full_cap".
Definition CELL_COUNT : string := "cell_cnt".
Definition TEMP_SENSOR_COUNT : string := "ntc_cnt".
(* Variable *)
Definition TEMPERATURE (i : nat) : string := "ntc" +:+ pretty i.
Definition CYCLE_COUNT : string := "cycle_cnt".
Definition BATTERY_SOC_MAH : string := "cur_cap".
Definition BATTERY_SOC_PERCENT : string := "cap_pct".
Definition BATTERY_VOLTAGE : string := "pack_mv".
Definition BATTERY_CURRENT : string := "pack_ma".
Definition CHARGING_ENABLED : string := "chg_fet_en".
Definition DISCHARGING_ENABLED : string := "dsg_fet_en".

(** The attributes [native_value] reads: the description's key and the
    divisor (1 unless given). *)
Record t := { key : string; divisor : Z }.

(** Return the sensor value from the lookup table. *)
Definition native_value (self : t) (data : Snapshot) : outcome pyval :=
  value <- getitem (basic_info data) (key self) ;;
  if divisor self =? 1 then Return value
  else q <- py_truediv value (VInt (divisor self)) ;; Return (py_round q 2).

End JBDBasicInfoSensor.

Module JBDCalculatedPowerSensor.

(** Calculate the sensor value from other values in the lookup table. *)
Definition native_value (data : Snapshot) : outcome pyval :=
  battery_voltage_mv <-
    getitem (basic_info data) JBDBasicInfoSensor.BATTERY_VOLTAGE ;;
  battery_current_ma <-
    getitem (basic_info data) JBDBasicInfoSensor.BATTERY_CURRENT ;;
  volts <- py_truediv battery_voltage_mv (VInt 1000) ;;
  amperes <- py_truediv battery_current_ma (VInt 1000) ;;
  py_mul volts amperes.

End JBDCalculatedPowerSensor.

Module JBDCalculatedDischargePowerSensor.

Definition native_value (data : Snapshot) : outcome pyval :=
  battery_voltage_mv <-
    getitem (basic_info data) JBDBasicInfoSensor.BATTERY_VOLTAGE ;;
  battery_current_ma <-
    getitem (basic_info data) JBDBasicInfoSensor.BATTERY_CURRENT ;;
  volts <- py_truediv battery_voltage_mv (VInt 1000) ;;
  amperes <- py_truediv battery_current_ma (VInt 1000) ;;
  battery_power_watts <- py_mul volts amperes ;;
  Return (if py_lt battery_power_watts (VInt 0)
          then py_neg battery_power_watts else VInt 0).

End JBDCalculatedDischargePowerSensor.

Module JBDCalculatedChargePowerSensor.

Definition native_value (data : Snapshot) : outcome pyval :=
  battery_voltage_mv <-
    getitem (basic_info data) JBDBasicInfoSensor.BATTERY_VOLTAGE ;;
  battery_current_ma <-
    getitem (basic_info data) JBDBasicInfoSensor.BATTERY_CURRENT ;;
  volts <- py_truediv battery_voltage_mv (VInt 1000) ;;
  amperes <- py_truediv battery_current_ma (VInt 1000) ;;
  battery_power_watts <- py_mul volts amperes ;;
  Return (if py_gt battery_power_watts (VInt 0)
          then battery_power_watts else VInt 0).

End JBDCalculatedChargePowerSensor.

Module JBDCellVoltageSensor.

Definition CELL_VOLTAGE (cell_number : nat) : string :=
  "cell" +:+ pretty cell_number +:+ "_mv".

(** The description's key, fixed by the constructor from the cell number. *)
Record t := { key : string }.

Definition init (cell_number : nat) : t := {| key := CELL_VOLTAGE cell_number |}.

(** Return the sensor value from the lookup table. *)
Definition native_value (self : t) (data : Snapshot) : outcome pyval :=
  cell_mv <- getitem (cell_info data) (key self) ;;
  q <- py_truediv cell_mv (VInt 1000) ;;
  Return (py_round q 3).

End JBDCellVoltageSensor.

Module JBDBasicInfoBinarySensor.

Definition CELL_BALANCING (i : nat) : string := "bal" +:+ pretty i.

Record t := { key : string }.

(** Return the binary sensor value from the lookup table. *)
Definition is_on (self : t) (data : Snapshot) : outcome pyval :=
  getitem (basic_info data) (key self).

End JBDBasicInfoBinarySensor.

(** The read-only entities that the two platforms register. *)
Inductive Entity :=
| BasicInfo (s : JBDBasicInfoSensor.t)
| CalculatedPower
| CalculatedDischargePower
| CalculatedChargePower
| CellVoltage (s : JBDCellVoltageSensor.t)
| BasicInfoBinary (s : JBDBasicInfoBinarySensor.t).

(** What the host reads from an entity: [native_value], or [is_on] for a
    binary sensor. *)
Definition read (e : Entity) (data : Snapshot) : outcome pyval :=
  match e with
  | BasicInfo s => JBDBasicInfoSensor.native_value s data
  | CalculatedPower => JBDCalculatedPowerSensor.native_value data
  | CalculatedDischargePower => JBDCalculatedDischargePowerSensor.native_value data
  | CalculatedChargePower => JBDCalculatedChargePowerSensor.native_value data
  | CellVoltage s => JBDCellVoltageSensor.native_value s data
  | BasicInfoBinary s => JBDBasicInfoBinarySensor.is_on s data
  end.

(** [range(0, n)]: [n] must be an int (a bool counts as one). *)
Definition py_range0 (n : pyval) : outcome (list nat) :=
  match as_num n with
  | NInt z => Return (seq 0 (Z.to_nat z))
  | NFloat _ => Raise TypeError
  end.

(** sensor.py, [async_setup_entry]: the sensors built from the snapshot of
    the first refresh, in the order they are appended. *)
Definition sensor_async_setup_entry (data : Snapshot) : outcome (list Entity) :=
  let basic key divisor :=
    BasicInfo {| JBDBasicInfoSensor.key := key;
                 JBDBasicInfoSensor.divisor := divisor |} in
  let fixed :=
    [ basic JBDBasicInfoSensor.BATTERY_SOC_PERCENT 1;
      basic JBDBasicInfoSensor.BATTERY_VOLTAGE 1000;
      basic JBDBasicInfoSensor.BATTERY_CURRENT 1000;
      CalculatedPower;
      CalculatedDischargePower;
      CalculatedChargePower;
      basic JBDBasicInfoSensor.CYCLE_COUNT 1 ] in
  ntc_cnt <- getitem (basic_info data) JBDBasicInfoSensor.TEMP_SENSOR_COUNT ;;
  temps <- py_range0 ntc_cnt ;;
  cell_cnt <- getitem (basic_info data) JBDBasicInfoSensor.CELL_COUNT ;;
  cells <- py_range0 cell_cnt ;;
  Return (fixed
          ++ map (fun i => basic (JBDBasicInfoSensor.TEMPERATURE i) 1) temps
          ++ map (fun i => CellVoltage (JBDCellVoltageSensor.init i)) cells).

(** binary_sensor.py, [async_setup_entry]. *)
Definition binary_sensor_async_setup_entry (data : Snapshot) : outcome (list Entity) :=
  cell_cnt <- getitem (basic_info data) JBDBasicInfoSensor.CELL_COUNT ;;
  cells <- py_range0 cell_cnt ;;
  Return (map (fun i => BasicInfoBinary
                 {| JBDBasicInfoBinarySensor.key :=
                      JBDBasicInfoBinarySensor.CELL_BALANCING i |}) cells).

(* ===================================================================== *)
(** * The device client and the running integration                       *)
(* ===================================================================== *)

(** The calls the integration makes on the device client ([bmstools]' [JBD]
    class). The client library and the device behind it are not part of the
    integration: a device is any type [D] with one state transition per
    call, each of which returns or raises. [jbd_is_open] observes whether
    the serial link is open. *)
Class JBD (D : Type) := {
  jbd_open : D -> outcome unit * D;
  jbd_close : D -> outcome unit * D;
  jbd_readBasicInfo : D -> outcome (gmap string pyval) * D;
  jbd_readCellInfo : D -> outcome (gmap string pyval) * D;
  jbd_chgDsgEnable : pyval -> pyval -> D -> outcome unit * D;
  jbd_writeReg : string -> Z -> D -> outcome unit * D;
  jbd_is_open : D -> bool
}.

(** The record of a client call, kept to state what was sent to the device
    and in which order. *)
Inductive call :=
| Copen
| Cclose
| CreadBasicInfo
| CreadCellInfo
| CchgDsgEnable (charge discharge : pyval)
| CwriteReg (reg : string) (value : Z).

Definition is_write (c : call) : bool :=
  match c with CchgDsgEnable _ _ | CwriteReg _ _ => true | _ => false end.

(** ** Persisted configuration (const.py, config_flow.py) *)

Definition DEFAULT_INTEGRATION_TITLE : string := "BMS Tools".
Definition ATTR_SERIAL_NUMBER : string := "serial_number".
Definition JBD_REG_SERIAL_NUM : string := "serial_num".

(** The dict built by [connect_and_read_device_info] and completed with the
    user's input: it always holds these five entries. *)
Record DeviceInfo := {
  port : string;
  serial_number : Z;
  model : string;
  sw_version : string;
  hw_version : string
}.

Definition set_serial_number (n : Z) (i : DeviceInfo) : DeviceInfo :=
  {| port := port i; serial_number := n; model := model i;
     sw_version := sw_version i; hw_version := hw_version i |}.

(** A configuration entry of the host, as far as the integration reads it. *)
Record ConfigEntry := {
  entry_id : string;
  data : DeviceInfo
}.

(** ** The host's update coordinator *)

(** [coordinator.data] is [None] until a refresh has succeeded. *)
Record Coordinator := {
  coordinator_data : option Snapshot;
  last_update_success : bool
}.

(** ** The state the integration runs in: the device behind the serial port
    with the calls made on it so far, the coordinator, the host's list of
    configured entries and the [init_info] of a running config flow. *)
Record World (D : Type) := {
  device : D;
  calls : list call;
  coordinator : Coordinator;
  entries : list ConfigEntry;
  init_info : DeviceInfo
}.
Arguments device {D} w.
Arguments calls {D} w.
Arguments coordinator {D} w.
Arguments entries {D} w.
Arguments init_info {D} w.

(** ** The monad of effectful code: state and exceptions. The state survives
    an exception. *)
Definition M (D A : Type) : Type := World D -> outcome A * World D.

Section Runtime.
Context {D : Type} `{JBD D}.

Definition ret {A} (a : A) : M D A := fun w => (Return a, w).

Definition bind {A B} (m : M D A) (k : A -> M D B) : M D B :=
  fun w => match m w with
           | (Return a, w') => k a w'
           | (Raise e, w') => (Raise e, w')
           end.

Definition raise {A} (e : exn) : M D A := fun w => (Raise e, w).

(** A pure computation that may raise. *)
Definition lift {A} (o : outcome A) : M D A := fun w => (o, w).

(** [try: body finally: final]: [final] runs on every exit of [body]; an
    exception of [final] replaces the outcome of [body]. *)
Definition try_finally {A} (body : M D A) (final : M D unit) : M D A :=
  fun w => let '(r, w1) := body w in
           match final w1 with
           | (Return _, w2) => (r, w2)
           | (Raise e, w2) => (Raise e, w2)
           end.

(** [try: body except BMSError: handler]. *)
Definition try_except_BMSError {A} (body : M D A) (handler : M D A) : M D A :=
  fun w => match body w with
           | (Raise BMSError, w1) => handler w1
           | r => r
           end.

(** A call on the client: the device makes its transition and the call is
    recorded. *)
Definition client_call {A} (c : call) (op : D -> outcome A * D) : M D A :=
  fun w => let '(r, d) := op (device w) in
           (r, {| device := d; calls := calls w ++ [c];
                  coordinator := coordinator w; entries := entries w;
                  init_info := init_info w |}).

Definition client_open : M D unit := client_call Copen jbd_open.
Definition client_close : M D unit := client_call Cclose jbd_close.
Definition client_readBasicInfo : M D (gmap string pyval) :=
  client_call CreadBasicInfo jbd_readBasicInfo.
Definition client_readCellInfo : M D (gmap string pyval) :=
  client_call CreadCellInfo jbd_readCellInfo.
Definition client_chgDsgEnable (charge discharge : pyval) : M D unit :=
  client_call (CchgDsgEnable charge discharge) (jbd_chgDsgEnable charge discharge).
Definition client_writeReg (reg : string) (value : Z) : M D unit :=
  client_call (CwriteReg reg value) (jbd_writeReg reg value).

Definition set_coordinator (c : Coordinator) : M D unit :=
  fun w => (Return tt,
            {| device := device w; calls := calls w; coordinator := c;
               entries := entries w; init_info := init_info w |}).

Definition set_init_info (i : DeviceInfo) : M D unit :=
  fun w => (Return tt,
            {| device := device w; calls := calls w;
               coordinator := coordinator w; entries := entries w;
               init_info := i |}).

(** [self.coordinator.data[COORDINATOR_DATA_BASIC_INFO]]: subscripting
    [None] raises [TypeError]. *)
Definition coordinator_basic_info : M D (gmap string pyval) :=
  fun w => match coordinator_data (coordinator w) with
           | Some s => (Return (basic_info s), w)
           | None => (Raise TypeError, w)
           end.

End Runtime.

Declare Scope io_scope.
Delimit Scope io_scope with io.
Notation "x <- c ;; k" := (bind c (fun x => k))
  (at level 100, c at next level, right associativity) : io_scope.
Notation "c ;;; k" := (bind c (fun _ => k))
  (at level 100, right associativity) : io_scope.

(* ===================================================================== *)
(** * The poll cycle (__init__.py)                                        *)
(* ===================================================================== *)

Section Integration.
Context {D : Type} `{JBD D}.
Open Scope io_scope.

(** Fetch data from BMS synchronously. *)
Definition sync_update_data : M D Snapshot :=
  infos <- try_finally
             (client_open ;;;
              basic_info <- client_readBasicInfo ;;
              cell_info <- client_readCellInfo ;;
              ret (basic_info, cell_info))
             client_close ;;
  ret {| basic_info := fst infos; cell_info := snd infos |}.

(** Fetch data from BMS asynchronously: the executor job runs
    [sync_update_data]; a [BMSError] becomes [UpdateFailed]. *)
Definition async_update_data : M D Snapshot :=
  try_except_BMSError sync_update_data
    (raise (UpdateFailed "BMS communication error")).

(** Modelled from the spec: the host's scheduled-refresh primitive
    ([DataUpdateCoordinator.async_refresh], not part of this repository).
    It runs the update method; a result is published as the new current
    snapshot; a failed update is reported to the subscribers, publishes
    nothing and leaves the previously published snapshot current. The
    refresh itself does not raise. *)
Definition coordinator_async_refresh : M D unit :=
  fun w => match async_update_data w with
           | (Return snapshot, w') =>
               set_coordinator {| coordinator_data := Some snapshot;
                                  last_update_success := true |} w'
           | (Raise _, w') =>
               set_coordinator
                 {| coordinator_data := coordinator_data (coordinator w');
                    last_update_success := false |} w'
           end.

(** switch.py, the wait after a write:
    [while <test>(self.client.readBasicInfo()[key]) and attempts > 0:
        attempts -= 1]
    The read and the test of the flag come first in the condition; the
    counter is looked at only when the flag asks for another round. *)
Fixpoint settle_loop (test : pyval -> bool) (key : string) (attempts : nat)
    : M D unit :=
  info <- client_readBasicInfo ;;
  flag <- lift (getitem info key) ;;
  if test flag then
    match attempts with
    | S attempts' => settle_loop test key attempts'
    | O => ret tt
    end
  else ret tt.

End Integration.

Open Scope io_scope.

(* ===================================================================== *)
(** * The toggles (switch.py)                                             *)
(* ===================================================================== *)

Module JBDChargeToggle.

(** Return the toggle value from the lookup table. *)
Definition is_on {D} `{JBD D} : M D pyval :=
  info <- coordinator_basic_info ;;
  lift (getitem info JBDBasicInfoSensor.CHARGING_ENABLED).

(** Turn the charge MOSFET on (i.e. conducting). *)
Definition async_turn_on {D} `{JBD D} : M D unit :=
  info <- coordinator_basic_info ;;
  discharge_enabled <-
    lift (getitem info JBDBasicInfoSensor.DISCHARGING_ENABLED) ;;
  client_chgDsgEnable (VBool true) discharge_enabled ;;;
  settle_loop (fun flag => negb (py_truthy flag))
    JBDBasicInfoSensor.CHARGING_ENABLED 5 ;;;
  coordinator_async_refresh.

(** Turn the charge MOSFET off (i.e. not conducting). *)
Definition async_turn_off {D} `{JBD D} : M D unit :=
  info <- coordinator_basic_info ;;
  discharge_enabled <-
    lift (getitem info JBDBasicInfoSensor.DISCHARGING_ENABLED) ;;
  client_chgDsgEnable (VBool false) discharge_enabled ;;;
  settle_loop py_truthy JBDBasicInfoSensor.CHARGING_ENABLED 5 ;;;
  coordinator_async_refresh.

End JBDChargeToggle.

Module JBDDischargeToggle.

(** Return the toggle value from the lookup table. *)
Definition is_on {D} `{JBD D} : M D pyval :=
  info <- coordinator_basic_info ;;
  lift (getitem info JBDBasicInfoSensor.DISCHARGING_ENABLED).

(** Turn the discharge MOSFET on (i.e. conducting). *)
Definition async_turn_on {D} `{JBD D} : M D unit :=
  info <- coordinator_basic_info ;;
  charge_enabled <-
    lift (getitem info JBDBasicInfoSensor.CHARGING_ENABLED) ;;
  client_chgDsgEnable charge_enabled (VBool true) ;;;
  settle_loop (fun flag => negb (py_truthy flag))
    JBDBasicInfoSensor.DISCHARGING_ENABLED 5 ;;;
  coordinator_async_refresh.

(** Turn the discharge MOSFET off (i.e. not conducting). *)
Definition async_turn_off {D} `{JBD D} : M D unit :=
  info <- coordinator_basic_info ;;
  charge_enabled <-
    lift (getitem info JBDBasicInfoSensor.CHARGING_ENABLED) ;;
  client_chgDsgEnable charge_enabled (VBool false) ;;;
  settle_loop py_truthy JBDBasicInfoSensor.DISCHARGING_ENABLED 5 ;;;
  coordinator_async_refresh.

End JBDDischargeToggle.


(* ===================================================================== *)
(** * The config flow (config_flow.py)                                    *)
(* ===================================================================== *)

(** The results a flow step hands back to the host. *)
Inductive FlowResult :=
| FlowAbort (reason : string)
| FlowForm (step_id : string) (errors : gmap string string)
| FlowCreateEntry (title : string) (entry_data : DeviceInfo).

Definition async_abort (reason : string) : FlowResult := FlowAbort reason.
Definition async_show_form (step_id : string) (errors : gmap string string)
  : FlowResult := FlowForm step_id errors.
Definition async_create_entry (title : string) (entry_data : DeviceInfo)
  : FlowResult := FlowCreateEntry title entry_data.

(** [range(lo, hi)]: the [hi - lo] integers from [lo] on. *)
Fixpoint range_from (lo : Z) (len : nat) : list Z :=
  match len with
  | O => []
  | S len' => lo :: range_from (lo + 1) len'
  end.

Definition py_range (lo hi : Z) : list Z := range_from lo (Z.to_nat (hi - lo)).

(** [x in l] on a list of ints. *)
Definition py_in (x : Z) (l : list Z) : bool := existsb (Z.eqb x) l.

(** Truth value of an int or [None]. *)
Definition truthy_opt (o : option Z) : bool :=
  match o with
  | Some n => negb (n =? 0)
  | None => false
  end.

Module BMSToolsConfigFlow.
Section Flow.
Context {D : Type} `{JBD D}.

(** [existing_entry[key]], the subscript applied to an entry of the host
    itself (not to its [data]). The class [ConfigEntry] belongs to the
    host; what subscripting one of its objects does is a parameter. *)
Variable config_entry_getitem : ConfigEntry -> string -> outcome Z.

(** The first loop of [get_next_available_serial_number]. *)
Fixpoint taken_serial_nums (existing : list ConfigEntry) : outcome (list Z) :=
  match existing with
  | [] => Return []
  | existing_entry :: rest =>
      obind (config_entry_getitem existing_entry ATTR_SERIAL_NUMBER) (fun n =>
      obind (taken_serial_nums rest) (fun ns => Return (n :: ns)))
  end.

(** Determine the next available locally unique serial number. *)
Definition get_next_available_serial_number : M D (option Z) :=
  fun w =>
    (obind (taken_serial_nums (entries w)) (fun taken =>
     Return (find (fun serial_number => negb (py_in serial_number taken))
               (py_range 1 65536))),
     w).

(** Write the serial number to the EEPROM of the device. *)
Definition write_serial_number (serial_number : Z) : M D unit :=
  try_except_BMSError
    (client_writeReg JBD_REG_SERIAL_NUM serial_number)
    (ret tt).

(** Handle the optional step of assigning a locally unique serial number
    if none is present. [user_input] is [None] or the submitted form. *)
Definition async_step_serial_number (user_input : option (gmap string pyval))
    : M D FlowResult :=
  errors <-
    match user_input with
    | Some input =>
        consent <- lift (getitem input "consent") ;;
        if py_truthy consent then
          new_serial_num <- get_next_available_serial_number ;;
          if truthy_opt new_serial_num then
            let n := default 0 new_serial_num in
            write_serial_number n ;;;
            (fun w => set_init_info (set_serial_number n (init_info w)) w) ;;;
            ret (∅ : gmap string string)
          else
            (* the result of [self.async_abort] is not returned *)
            let _ := async_abort "serial_numbers_exhausted" in
            ret (∅ : gmap string string)
        else ret ({[ "base" := "must_give_consent" ]} : gmap string string)
    | None => ret (∅ : gmap string string)
    end ;;
  fun w =>
    if serial_number (init_info w) =? 0 then
      (Return (async_show_form "serial_number" errors), w)
    else if existsb (fun existing_entry =>
                       serial_number (data existing_entry)
                       =? serial_number (init_info w)) (entries w)
    then (Return (async_abort "device_already_configured"), w)
    else (Return (async_create_entry DEFAULT_INTEGRATION_TITLE (init_info w)), w).

End Flow.
End BMSToolsConfigFlow.

(** Two behaviours of [existing_entry[ATTR_SERIAL_NUMBER]].
    [subscript_unsupported] is the host's: its class [ConfigEntry] defines no
    subscript, so the expression raises [TypeError].
    [subscript_as_data] is not the host's behaviour: it is a host on which
    the expression means [existing_entry.data[ATTR_SERIAL_NUMBER]], as the
    other loops of the flow write it. It is used only to reach the branch of
    the exhausted search, which no run on the host reaches. *)
Definition subscript_as_data (e : ConfigEntry) (key : string) : outcome Z :=
  if decide (key = ATTR_SERIAL_NUMBER) then Return (serial_number (data e))
  else Raise (KeyError key).

Definition subscript_unsupported (e : ConfigEntry) (key : string) : outcome Z :=
  Raise TypeError.

(* ===================================================================== *)
(** * A simulated device                                                  *)
(* ===================================================================== *)

(** A small device used to run the integration on concrete inputs. Each call
    but [close] consumes one entry of [faults]; [Some e] makes that call
    raise [e]. [close] always succeeds. A write of the FET flags takes effect
    only when [latches] is set. *)
Module Sim.

Record t := {
  link_open : bool;
  chg_fet : bool;
  dsg_fet : bool;
  latches : bool;
  serial_num : Z;
  faults : list (option exn)
}.

Definition step {A} (d : t) (eff : t -> A * t) : outcome A * t :=
  let rest := {| link_open := link_open d; chg_fet := chg_fet d;
                 dsg_fet := dsg_fet d; latches := latches d;
                 serial_num := serial_num d; faults := tail (faults d) |} in
  match faults d with
  | Some e :: _ => (Raise e, rest)
  | _ => let '(a, d') := eff rest in (Return a, d')
  end.

Definition set_link (b : bool) (d : t) : unit * t :=
  (tt, {| link_open := b; chg_fet := chg_fet d; dsg_fet := dsg_fet d;
          latches := latches d; serial_num := serial_num d;
          faults := faults d |}).

Definition basic (d : t) : gmap string pyval :=
  {[ "chg_fet_en" := VBool (chg_fet d); "dsg_fet_en" := VBool (dsg_fet d);
     "pack_mv" := VInt 25000; "pack_ma" := VInt (-2000);
     "cell_cnt" := VInt 1; "ntc_cnt" := VInt 0 ]}.

Definition cells (d : t) : gmap string pyval := {[ "cell0_mv" := VInt 3456 ]}.

Definition set_fets (c g : pyval) (d : t) : unit * t :=
  (tt, if latches d
       then {| link_open := link_open d; chg_fet := py_truthy c;
               dsg_fet := py_truthy g; latches := latches d;
               serial_num := serial_num d; faults := faults d |}
       else d).

Definition set_serial (n : Z) (d : t) : unit * t :=
  (tt, {| link_open := link_open d; chg_fet := chg_fet d;
          dsg_fet := dsg_fet d; latches := latches d;
          serial_num := n; faults := faults d |}).

#[global] Instance client : JBD t := {|
  jbd_open d := step d (set_link true);
  jbd_close d := (Return tt, snd (set_link false d));
  jbd_readBasicInfo d := step d (fun d' => (basic d', d'));
  jbd_readCellInfo d := step d (fun d' => (cells d', d'));
  jbd_chgDsgEnable c g d := step d (set_fets c g);
  jbd_writeReg reg n d := step d (set_serial n);
  jbd_is_open := link_open
|}.

Definition device0 : t :=
  {| link_open := false; chg_fet := false; dsg_fet := true; latches := true;
     serial_num := 0; faults := [] |}.

Definition with_faults (fs : list (option exn)) (d : t) : t :=
  {| link_open := link_open d; chg_fet := chg_fet d; dsg_fet := dsg_fet d;
     latches := latches d; serial_num := serial_num d; faults := fs |}.

Definition stuck (d : t) : t :=
  {| link_open := link_open d; chg_fet := chg_fet d; dsg_fet := dsg_fet d;
     latches := false; serial_num := serial_num d; faults := faults d |}.

Definition info0 : DeviceInfo :=
  {| port := "/dev/ttyUSB0"; serial_number := 0; model := "SP04S020";
     sw_version := "2.1"; hw_version := "2021.5.17" |}.

Definition snapshot0 : Snapshot :=
  {| basic_info := basic device0; cell_info := cells device0 |}.

Definition world (d : t) (existing : list ConfigEntry) : World t :=
  {| device := d; calls := [];
     coordinator := {| coordinator_data := Some snapshot0;
                       last_update_success := true |};
     entries := existing; init_info := info0 |}.

End Sim.

(* ===================================================================== *)
(** * Specification-side definitions for the projections                  *)
(* ===================================================================== *)

(** The float nearest to the decimal [n / 10^places], for writing expected
    values such as 3.456. *)
Definition decimal (n : Z) (places : nat) : spec_float :=
  F64.div (F64.exact_of_Z n) (F64.exact_of_Z (10 ^ Z.of_nat places)).

(** The three derived projections in the words of the specification:
    [power = (pack_mV/1000) * (pack_mA/1000)],
    [discharge_power = max(0, -power)], [charge_power = max(0, power)]. *)
Definition spec_power (pack_mv pack_ma : pyval) : outcome pyval :=
  obind (py_truediv pack_mv (VInt 1000)) (fun volts =>
  obind (py_truediv pack_ma (VInt 1000)) (fun amperes =>
  py_mul volts amperes)).

Definition spec_discharge_power (power : pyval) : pyval :=
  py_max (VInt 0) (py_neg power).

Definition spec_charge_power (power : pyval) : pyval :=
  py_max (VInt 0) power.

(** [v != 0]. *)
Definition nonzero (v : pyval) : bool := negb (py_eq v (VInt 0)).

(** "Exactly one of discharge_power/charge_power is non-zero", as the
    specification words the sign partition. *)
Definition exactly_one_nonzero (S : Snapshot) : Prop :=
  exists d c,
    JBDCalculatedDischargePowerSensor.native_value S = Return d /\
    JBDCalculatedChargePowerSensor.native_value S = Return c /\
    xorb (nonzero d) (nonzero c) = true.

(** The read-only projection in the words of the specification: look up
    [key], divide by [divisor] and round to 2 decimal places if the divisor
    is not 1. *)
Definition spec_project (mapping : gmap string pyval) (key : string)
    (divisor : Z) : outcome pyval :=
  obind (getitem mapping key) (fun value =>
  if divisor =? 1 then Return value
  else obind (py_truediv value (VInt divisor)) (fun q => Return (py_round q 2))).

(** Which entry of which mapping a key-based entity reads. *)
Definition lookup_of (e : Entity) (S : Snapshot)
    : option (gmap string pyval * string) :=
  match e with
  | BasicInfo s => Some (basic_info S, JBDBasicInfoSensor.key s)
  | CellVoltage s => Some (cell_info S, JBDCellVoltageSensor.key s)
  | BasicInfoBinary s => Some (basic_info S, JBDBasicInfoBinarySensor.key s)
  | _ => None
  end.

(** [round(value / divisor, ndigits)]. *)
Definition scaled (value : pyval) (divisor : Z) (ndigits : nat) : outcome pyval :=
  obind (py_truediv value (VInt divisor)) (fun q => Return (py_round q ndigits)).

(** What each kind of key-based entity makes of the raw value. *)
Definition projected (e : Entity) (value : pyval) : outcome pyval :=
  match e with
  | BasicInfo s =>
      if JBDBasicInfoSensor.divisor s =? 1 then Return value
      else scaled value (JBDBasicInfoSensor.divisor s) 2
  | CellVoltage _ => scaled value 1000 3
  | _ => Return value
  end.

(** The snapshots of the two scenarios: a pack charged with 2 A at 25 V, and
    an idle pack. *)
Definition charging_snapshot : Snapshot :=
  {| basic_info := {[ "pack_mv" := VInt 25000; "pack_ma" := VInt (-2000) ]};
     cell_info := ∅ |}.

Definition idle_snapshot : Snapshot :=
  {| basic_info := {[ "pack_mv" := VInt 25000; "pack_ma" := VInt 0 ]};
     cell_info := ∅ |}.

(* ===================================================================== *)
(** * Specification-side definitions for the effectful code               *)
(* ===================================================================== *)

(** The calls of one poll cycle: [open] first, the reads that were reached,
    and [close] last. *)
Definition cycle_trace (t : list call) : Prop :=
  exists reads,
    t = Copen :: reads ++ [Cclose] /\
    (reads = [] \/ reads = [CreadBasicInfo]
     \/ reads = [CreadBasicInfo; CreadCellInfo]).

Section CycleConditions.
Context {D : Type} `{JBD D}.

(** The client's [close] is safe to call in any state: it returns. *)
Definition close_is_safe : Prop :=
  forall d : D, fst (jbd_close d) = Return tt.

(** The client's [close] leaves the link closed. *)
Definition close_closes : Prop :=
  forall d : D, jbd_is_open (snd (jbd_close d)) = false.

(** In the cycle started in [w] the link opens and one of the two register
    reads raises the client's communication error. *)
Definition a_read_fails (w : World D) : Prop :=
  exists d1,
    jbd_open (device w) = (Return tt, d1) /\
    (fst (jbd_readBasicInfo d1) = Raise BMSError \/
     exists b d2,
       jbd_readBasicInfo d1 = (Return b, d2) /\
       fst (jbd_readCellInfo d2) = Raise BMSError).

(** In the cycle started in [w] the link opens and the two reads return
    [b] and [c]. *)
Definition reads_return (w : World D) (b c : gmap string pyval) : Prop :=
  exists d1 d2 d3,
    jbd_open (device w) = (Return tt, d1) /\
    jbd_readBasicInfo d1 = (Return b, d2) /\
    jbd_readCellInfo d2 = (Return c, d3).

End CycleConditions.

(** The two toggles and their four operations. *)
Inductive toggle := Charge | Discharge.

Definition toggle_set {D} `{JBD D} (t : toggle) (desired : bool) : M D unit :=
  match t, desired with
  | Charge, true => JBDChargeToggle.async_turn_on
  | Charge, false => JBDChargeToggle.async_turn_off
  | Discharge, true => JBDDischargeToggle.async_turn_on
  | Discharge, false => JBDDischargeToggle.async_turn_off
  end.

Definition sibling_key (t : toggle) : string :=
  match t with
  | Charge => JBDBasicInfoSensor.DISCHARGING_ENABLED
  | Discharge => JBDBasicInfoSensor.CHARGING_ENABLED
  end.

(** The combined write that sets [t] to [desired] and carries [sibling] for
    the other flag. *)
Definition combined_write (t : toggle) (desired : bool) (sibling : pyval) : call :=
  match t with
  | Charge => CchgDsgEnable (VBool desired) sibling
  | Discharge => CchgDsgEnable sibling (VBool desired)
  end.

(** A device on which a write of the FET flags never takes effect, in a
    state where the snapshot shows charging off and discharging on. *)
Definition stuck_world : World Sim.t := Sim.world (Sim.stuck Sim.device0) [].

(** Worlds of the simulated device for the poll cycle: one where the read of
    the basic registers raises the communication error, one without
    faults. *)
Definition failing_read_world : World Sim.t :=
  Sim.world (Sim.with_faults [None; Some BMSError] Sim.device0) [].

Definition healthy_world : World Sim.t := Sim.world Sim.device0 [].

(** Config entries for every serial number from 1 to 65535. *)
Definition entry_with_serial (n : Z) : ConfigEntry :=
  {| entry_id := "entry"; data := set_serial_number n Sim.info0 |}.

Definition all_serials_taken : list ConfigEntry :=
  map entry_with_serial (py_range 1 65536).

(** The submitted consent form. *)
Definition consent_form (consent : bool) : gmap string pyval :=
  {[ "consent" := VBool consent ]}.

(* ===================================================================== *)
(** * Entity identity (device.py, and the keys given by the constructors) *)
(* ===================================================================== *)

(** [entity_description.key] of each read-only entity: the constructor's
    argument for the key-based entities, a constant for the derived ones. *)
Definition entity_key (e : Entity) : string :=
  match e with
  | BasicInfo s => JBDBasicInfoSensor.key s
  | CalculatedPower => "battery_power"
  | CalculatedDischargePower => "discharge_power"
  | CalculatedChargePower => "charge_power"
  | CellVoltage s => JBDCellVoltageSensor.key s
  | BasicInfoBinary s => JBDBasicInfoBinarySensor.key s
  end.

(** switch.py, [async_setup_entry]: the keys of the two toggles, in the
    order they are appended. *)
Definition switch_keys : list string :=
  [ JBDBasicInfoSensor.CHARGING_ENABLED; JBDBasicInfoSensor.DISCHARGING_ENABLED ].

Module BMSEntity.

(** Return the unique id for this device: [f"{serial}_{key}"]. The entry
    data always holds a serial number, so the [None] branch is not taken. *)
Definition unique_id (config_entry_data : DeviceInfo) (key : string)
    : option string :=
  Some (pretty (serial_number config_entry_data) +:+ "_" +:+ key).

End BMSEntity.

(** The keys of everything the three platforms register for one snapshot. *)
Definition registered_keys (data : Snapshot) : outcome (list string) :=
  obind (sensor_async_setup_entry data) (fun sensors =>
  obind (binary_sensor_async_setup_entry data) (fun binary_sensors =>
  Return (map entity_key sensors ++ map entity_key binary_sensors
          ++ switch_keys))).

(** A string without the character [_]. *)
Fixpoint no_underscore (s : string) : bool :=
  match s with
  | EmptyString => true
  | String c s' => negb (String.eqb (String c EmptyString) "_") && no_underscore s'
  end.

(** The test that [round(mv / 1000, 3)] gives back [mv] thousandths: the
    quotient [m * 2^e] of the division is a positive number with [e < 0],
    and [m * 1000] is nearer to [mv * 2^-e] than half of [2^-e]. *)
Definition millivolts_round_trip (mv : Z) : bool :=
  match F64.div (F64.exact_of_Z mv) (F64.exact_of_Z 1000) with
  | S754_finite false m e =>
      (e <? 0)
      && (2 * Z.abs (Zpos m * 1000 - mv * Z.shiftl 1 (- e)) <? Z.shiftl 1 (- e))
  | _ => false
  end.

(** [s.startswith(p)]. *)
Fixpoint starts_with (p s : string) : bool :=
  match p, s with
  | EmptyString, _ => true
  | String a p', String b s' => Ascii.eqb a b && starts_with p' s'
  | String _ _, EmptyString => false
  end.

(** The families of keys: 1 for [ntc{}], 2 for [cell{}_mv], 3 for [bal{}],
    0 for the others. *)
Definition key_family (k : string) : nat :=
  if starts_with "ntc" k then 1
  else if starts_with "cell" k then 2
  else if starts_with "bal" k then 3
  else 0.

(** A snapshot with the given sensor and cell counts. *)
Definition counts_snapshot (ntc_cnt cell_cnt : Z) : Snapshot :=
  {| basic_info := {[ "ntc_cnt" := VInt ntc_cnt; "cell_cnt" := VInt cell_cnt ]};
     cell_info := ∅ |}.

(** The keys of the seven sensors that do not depend on a count. *)
Definition fixed_sensor_keys : list string :=
  [ JBDBasicInfoSensor.BATTERY_SOC_PERCENT; JBDBasicInfoSensor.BATTERY_VOLTAGE;
    JBDBasicInfoSensor.BATTERY_CURRENT; "battery_power"; "discharge_power";
    "charge_power"; JBDBasicInfoSensor.CYCLE_COUNT ].

(** The client call that sets [t] to [desired] and carries [sibling]. *)
Definition combined_write_op {D} `{JBD D} (t : toggle) (desired : bool)
    (sibling : pyval) : D -> outcome unit * D :=
  match t with
  | Charge => jbd_chgDsgEnable (VBool desired) sibling
  | Discharge => jbd_chgDsgEnable sibling (VBool desired)
  end.

(** The world [w] after a client call that left the device in [d]. *)
Definition after_call {D} (w : World D) (c : call) (d : D) : World D :=
  {| device := d; calls := calls w ++ [c]; coordinator := coordinator w;
     entries := entries w; init_info := init_info w |}.


(** A device on which the write of the FET flags raises. *)
Definition failing_write_world : World Sim.t :=
  Sim.world (Sim.with_faults [Some BMSError] Sim.device0) [].

(** A device whose port cannot be opened. *)
Definition unplugged_world : World Sim.t :=
  Sim.world (Sim.with_faults [Some (SerialException 19)] Sim.device0) [].

(* ===================================================================== *)
(** * Probing a device (config_flow.py)                                   *)
(* ===================================================================== *)

(** The values of the device information and of the submitted forms:
    [None], numbers and strings. *)
Inductive pyobj :=
| ONone
| ONum (v : pyval)
| OStr (s : string).

(** [d.get(k)]: [None] for an absent key. *)
Definition dict_get (d : gmap string pyobj) (k : string) : pyobj :=
  match d !! k with
  | Some v => v
  | None => ONone
  end.

(** [existing == other] for a string [existing]. *)
Definition str_eq (existing : string) (other : pyobj) : bool :=
  match other with
  | OStr s => String.eqb existing s
  | _ => false
  end.

(** The client's register read, used only while probing. *)
Class JBDRegisters (D : Type) := {
  jbd_readReg : string -> D -> outcome (gmap string pyobj) * D
}.

(** The calls of a probe, and the scan of the serial ports. *)
Inductive probe_call :=
| Pscan
| Popen (com_port : pyobj)
| Pclose
| PreadReg (reg : string)
| PreadBasicInfo.

Definition CONF_PORT : string := "port".
Definition ATTR_SW_VERSION : string := "sw_version".
Definition ATTR_HW_VERSION : string := "hw_version".
Definition ATTR_MODEL : string := "model".
Definition JBD_REG_DEVICE_NAME : string := "device_name".
Definition JBD_BASIC_FIRMWARE_VERSION : string := "version".
Definition MAX_CONNECTION_ATTEMPTS : nat := 2.

(** The state of a flow before the serial-number step: the device behind
    the selected port with the calls made so far, the serial ports present
    on the host, the [device_info] dict under construction and the two
    attributes that cache the scan. *)
Record Probe (D : Type) := {
  probe_device : D;
  probe_calls : list probe_call;
  serial_ports : list string;
  device_info : gmap string pyobj;
  com_ports_list : option (list string);
  default_com_port : option string
}.
Arguments probe_device {D} p.
Arguments probe_calls {D} p.
Arguments serial_ports {D} p.
Arguments device_info {D} p.
Arguments com_ports_list {D} p.
Arguments default_com_port {D} p.

Definition P (D A : Type) : Type := Probe D -> outcome A * Probe D.

(** What [async_step_init] hands back: a result for the host, or the call
    of the serial-number step with the [init_info] it has stored. *)
Inductive InitResult :=
| InitDone (result : FlowResult)
| InitSerialNumberStep (flow_init_info : gmap string pyobj).

(** Find and store available COM ports for the GUI dropdown. *)
Definition scan_comports (com_ports : list string)
    : option (list string) * option string :=
  match com_ports with
  | [] => (None, None)
  | first :: _ => (Some com_ports, Some first)
  end.

Section Probing.
Context {D : Type} `{JBD D} `{JBDRegisters D}.

(** [str(x)] of a float, as the run-time prints it; the dates of a device
    are ints. *)
Variable float_repr : spec_float -> string.

(** The head of a connection attempt, which binds the local [client]:
    [ser = Serial(); ser.port = com_port; client = JBD(ser)]. The two
    classes belong to libraries; the statements make no call on the device,
    and what they do with a given port is a parameter. When they raise,
    [client] is not assigned. *)
Variable new_client : pyobj -> outcome unit.

(** [f"{v}"]. *)
Definition py_str (v : pyval) : string :=
  match v with
  | VBool true => "True"
  | VBool false => "False"
  | VInt z => pretty z
  | VFloat f => float_repr f
  end.

Definition pret {A} (a : A) : P D A := fun p => (Return a, p).

Definition pbind {A B} (m : P D A) (k : A -> P D B) : P D B :=
  fun p => match m p with
           | (Return a, p') => k a p'
           | (Raise e, p') => (Raise e, p')
           end.

Definition plift {A} (o : outcome A) : P D A := fun p => (o, p).

(** A call on the client of the probe. *)
Definition probe_step {A} (c : probe_call) (op : D -> outcome A * D) : P D A :=
  fun p => let '(r, d) := op (probe_device p) in
           (r, {| probe_device := d; probe_calls := probe_calls p ++ [c];
                  serial_ports := serial_ports p;
                  device_info := device_info p;
                  com_ports_list := com_ports_list p;
                  default_com_port := default_com_port p |}).

(** [device_info[key] = value]. *)
Definition set_device_info (key : string) (value : pyobj) : P D unit :=
  fun p => (Return tt,
            {| probe_device := probe_device p; probe_calls := probe_calls p;
               serial_ports := serial_ports p;
               device_info := <[key := value]> (device_info p);
               com_ports_list := com_ports_list p;
               default_com_port := default_com_port p |}).

(** [device_info = {}]. *)
Definition clear_device_info : P D unit :=
  fun p => (Return tt,
            {| probe_device := probe_device p; probe_calls := probe_calls p;
               serial_ports := serial_ports p; device_info := ∅;
               com_ports_list := com_ports_list p;
               default_com_port := default_com_port p |}).

(** The body of the [try] of one connection attempt. *)
Definition read_device_info (com_port : pyobj) : P D unit :=
  pbind (plift (new_client com_port)) (fun _ =>
  pbind (probe_step (Popen com_port) jbd_open) (fun _ =>
  pbind (probe_step (PreadReg JBD_REG_SERIAL_NUM)
           (jbd_readReg JBD_REG_SERIAL_NUM)) (fun reg =>
  pbind (set_device_info ATTR_SERIAL_NUMBER
           (dict_get reg JBD_REG_SERIAL_NUM)) (fun _ =>
  pbind (probe_step PreadBasicInfo jbd_readBasicInfo) (fun basic_info =>
  pbind (plift (getitem basic_info JBD_BASIC_FIRMWARE_VERSION)) (fun version =>
  pbind (set_device_info ATTR_SW_VERSION (ONum version)) (fun _ =>
  pbind (plift (getitem basic_info "year")) (fun year =>
  pbind (plift (getitem basic_info "month")) (fun month =>
  pbind (plift (getitem basic_info "day")) (fun day =>
  pbind (set_device_info ATTR_HW_VERSION
           (OStr (py_str year +:+ "." +:+ py_str month +:+ "."
                  +:+ py_str day))) (fun _ =>
  pbind (probe_step (PreadReg JBD_REG_DEVICE_NAME)
           (jbd_readReg JBD_REG_DEVICE_NAME)) (fun reg =>
  set_device_info ATTR_MODEL (dict_get reg JBD_REG_DEVICE_NAME))))))))))))).

(** [client.close()] in the [finally] block: a call on the client when the
    local [client] is bound, [UnboundLocalError] when it is not. *)
Definition close_client (bound : bool) : P D unit :=
  if bound then probe_step Pclose jbd_close
  else plift (Raise (UnboundLocalError "client")).

(** Whether the head of an attempt has assigned [client]. *)
Definition binds_client (com_port : pyobj) : bool :=
  match new_client com_port with
  | Return _ => true
  | Raise _ => false
  end.

(** The [while attempt <= MAX_CONNECTION_ATTEMPTS] loop, by the number
    [left] of attempts that remain ([attempt == MAX_CONNECTION_ATTEMPTS]
    when one remains); [bound] tells whether an earlier round has assigned
    [client]. Each round runs the body, then the [finally] block
    ([client.close()]), whose exception would replace any other outcome; a
    [BMSError] of the body is raised again on the last attempt and leads to
    the next round otherwise; any other exception leaves the loop. *)
Fixpoint connect_attempts (com_port : pyobj) (bound : bool) (left : nat)
    : P D unit :=
  match left with
  | O => pret tt
  | S left' =>
      fun p =>
        let '(body, p1) := read_device_info com_port p in
        let bound' := bound || binds_client com_port in
        let '(closing, p2) := close_client bound' p1 in
        match closing with
        | Raise e => (Raise e, p2)
        | Return _ =>
            match body with
            | Return _ => (Return tt, p2)
            | Raise BMSError =>
                match left' with
                | O => (Raise BMSError, p2)
                | S _ => connect_attempts com_port bound' left' p2
                end
            | Raise e => (Raise e, p2)
            end
        end
  end.

(** Validate the user input allows us to connect. *)
Definition connect_and_read_device_info (data : gmap string pyobj)
    : P D (gmap string pyobj) :=
  pbind (plift (getitem data CONF_PORT)) (fun com_port =>
  pbind clear_device_info (fun _ =>
  pbind (connect_attempts com_port false MAX_CONNECTION_ATTEMPTS) (fun _ =>
  fun p => (Return (device_info p), p)))).

(** The first lines of [async_step_init]: scan once, keep the result. *)
Definition ensure_com_ports : P D bool :=
  fun p =>
    match com_ports_list p with
    | None =>
        let result := scan_comports (serial_ports p) in
        (Return (bool_decide (snd result = None)),
         {| probe_device := probe_device p;
            probe_calls := probe_calls p ++ [Pscan];
            serial_ports := serial_ports p; device_info := device_info p;
            com_ports_list := fst result; default_com_port := snd result |})
    | Some _ => (Return false, p)
    end.

(** The check for an already configured port; [user_input[CONF_PORT]] is
    evaluated for each existing entry. *)
Fixpoint port_already_configured (existing : list ConfigEntry)
    (user_input : gmap string pyobj) : outcome bool :=
  match existing with
  | [] => Return false
  | existing_entry :: rest =>
      obind (getitem user_input CONF_PORT) (fun selected =>
      if str_eq (port (data existing_entry)) selected then Return true
      else port_already_configured rest user_input)
  end.

(** Handle the first step, which is selecting the serial port. *)
Definition async_step_init (existing : list ConfigEntry)
    (user_input : option (gmap string pyobj)) : P D InitResult :=
  pbind ensure_com_ports (fun none_found =>
  if none_found then pret (InitDone (async_abort "no_serial_ports"))
  else
    let show_form (errors : gmap string string) : P D InitResult :=
      pret (InitDone (async_show_form "init" errors)) in
    match user_input with
    | None => show_form ∅
    | Some input =>
        pbind (plift (port_already_configured existing input)) (fun taken =>
        if taken then pret (InitDone (async_abort "port_already_configured"))
        else
          fun p =>
            match connect_and_read_device_info input p with
            | (Return info, p') =>
                (Return (InitSerialNumberStep (input ∪ info)), p')
            | (Raise (SerialException errno), p') =>
                show_form
                  {[ "base" := if errno =? 19 then "invalid_serial_port"
                               else "cannot_open_serial_port" ]} p'
            | (Raise BMSError, p') =>
                show_form {[ "base" := "cannot_connect" ]} p'
            | (Raise e, p') => (Raise e, p')
            end)
    end).

End Probing.

(** The calls of one connection attempt on [com_port]: [open], the reads
    that were reached, in their order, and [close]. *)
Definition attempt_trace (com_port : pyobj) (t : list probe_call) : Prop :=
  exists reads,
    t = Popen com_port :: reads ++ [Pclose] /\
    (reads = [] \/ reads = [PreadReg JBD_REG_SERIAL_NUM]
     \/ reads = [PreadReg JBD_REG_SERIAL_NUM; PreadBasicInfo]
     \/ reads = [PreadReg JBD_REG_SERIAL_NUM; PreadBasicInfo;
                 PreadReg JBD_REG_DEVICE_NAME]).

(** The four entries of a complete device information. *)
Definition device_info_keys : gset string :=
  {[ ATTR_SERIAL_NUMBER; ATTR_SW_VERSION; ATTR_HW_VERSION; ATTR_MODEL ]}.

(** ** A bench device for the probe: each call but [close] consumes one
    entry of [bench_faults]. *)
Module Bench.

Record t := {
  bench_faults : list (option exn);
  bench_serial : Z
}.

Definition step {A} (d : t) (a : A) : outcome A * t :=
  let rest := {| bench_faults := tail (bench_faults d);
                 bench_serial := bench_serial d |} in
  match bench_faults d with
  | Some e :: _ => (Raise e, rest)
  | _ => (Return a, rest)
  end.

Definition basic : gmap string pyval :=
  {[ "version" := VInt 33; "year" := VInt 2021; "month" := VInt 5;
     "day" := VInt 17 ]}.

Definition registers (d : t) (reg : string) : gmap string pyobj :=
  if String.eqb reg JBD_REG_SERIAL_NUM
  then {[ reg := ONum (VInt (bench_serial d)) ]}
  else {[ reg := OStr "SP04S020" ]}.

#[global] Instance client : JBD t := {|
  jbd_open d := step d tt;
  jbd_close d := (Return tt, d);
  jbd_readBasicInfo d := step d basic;
  jbd_readCellInfo d := step d ∅;
  jbd_chgDsgEnable c g d := step d tt;
  jbd_writeReg reg n d := step d tt;
  jbd_is_open d := false
|}.

#[global] Instance registers_client : JBDRegisters t := {|
  jbd_readReg reg d := step d (registers d reg)
|}.

Definition float_repr (f : spec_float) : string := "nan".

(** The head of an attempt with the serial library's port setter, which
    takes [None] or a string and raises [ValueError] for anything else. *)
Definition new_client (com_port : pyobj) : outcome unit :=
  match com_port with
  | ONum _ => Raise ValueError
  | _ => Return tt
  end.

Definition probe (faults : list (option exn)) (ports : list string) : Probe t :=
  {| probe_device := {| bench_faults := faults; bench_serial := 0 |};
     probe_calls := []; serial_ports := ports; device_info := ∅;
     com_ports_list := None; default_com_port := None |}.

Definition form (com_port : string) : gmap string pyobj :=
  {[ CONF_PORT := OStr com_port ]}.

End Bench.

(** The state of a flow after the scan of the serial ports. *)
Definition after_scan {D} (p : Probe D) : Probe D :=
  {| probe_device := probe_device p;
     probe_calls := probe_calls p ++ [Pscan];
     serial_ports := serial_ports p; device_info := device_info p;
     com_ports_list := fst (scan_comports (serial_ports p));
     default_com_port := snd (scan_comports (serial_ports p)) |}.

(** The state in which the probe starts: after the scan, if one is due. *)
Definition before_probe {D} (p : Probe D) : Probe D :=
  match com_ports_list p with
  | None => after_scan p
  | Some _ => p
  end.

(** Serial ports are available to the flow: cached, or found by a scan. *)
Definition ports_available {D} (p : Probe D) : Prop :=
  com_ports_list p = None -> serial_ports p <> [].

(** The form of the first step with one error. *)
Definition init_form_with (error : string) : InitResult :=
  InitDone (FlowForm "init" {[ "base" := error ]}).

(** The state after [client.close()]. *)
Definition after_close {D} `{JBD D} (p : Probe D) : Probe D :=
  {| probe_device := snd (jbd_close (probe_device p));
     probe_calls := probe_calls p ++ [Pclose];
     serial_ports := serial_ports p; device_info := device_info p;
     com_ports_list := com_ports_list p;
     default_com_port := default_com_port p |}.

(** The state after a call [c] on the client that left the device as [d]. *)
Definition after_call_on {D} (p : Probe D) (c : probe_call) (d : D)
    : Probe D :=
  {| probe_device := d; probe_calls := probe_calls p ++ [c];
     serial_ports := serial_ports p; device_info := device_info p;
     com_ports_list := com_ports_list p;
     default_com_port := default_com_port p |}.

(** The state with an empty [device_info]. *)
Definition cleared {D} (p : Probe D) : Probe D :=
  {| probe_device := probe_device p; probe_calls := probe_calls p;
     serial_ports := serial_ports p; device_info := ∅;
     com_ports_list := com_ports_list p;
     default_com_port := default_com_port p |}.

(** Flows on the bench: one serial port, with a device that answers at
    once, one that is asleep at the first attempt, one that never answers
    and one that was unplugged; and a host without serial ports. *)
Definition usb0 : string := "/dev/ttyUSB0".

Definition healthy_probe : Probe Bench.t := Bench.probe [] [usb0].

Definition sleeping_probe : Probe Bench.t := Bench.probe [Some BMSError] [usb0].

Definition dead_probe : Probe Bench.t :=
  Bench.probe [Some BMSError; Some BMSError] [usb0].

Definition unplugged_probe : Probe Bench.t :=
  Bench.probe [Some (SerialException 19)] [usb0].

Definition no_ports_probe : Probe Bench.t := Bench.probe [] [].

(** An entry of the host that is configured on [com_port]. *)
Definition entry_on_port (com_port : string) : ConfigEntry :=
  {| entry_id := "entry";
     data := {| port := com_port; serial_number := 1; model := "SP04S020";
                sw_version := "33"; hw_version := "2021.5.17" |} |}.

(* ===================================================================== *)
(** * Properties of the numbers                                           *)
(* ===================================================================== *)

Lemma compare_int_finite_0 s m e :
  F64.compare_int (S754_finite s m e) 0 = Some (if s then Lt else Gt).
Proof.
  unfold F64.compare_int. f_equal.
  assert (Hpow : 0 <= e -> 0 < 2 ^ e) by (intros; apply Z.pow_pos_nonneg; lia).
  destruct (0 <=? e) eqn:He.
  - apply Z.leb_le in He. specialize (Hpow He).
    destruct s; simpl cond_Zopp.
    + apply Z.compare_lt_iff. nia.
    + apply Z.compare_gt_iff. nia.
  - rewrite Z.mul_0_l. now destruct s.
Qed.

Lemma compare_int_opp_0 f :
  F64.compare_int (F64.opp f) 0 = option_map CompOpp (F64.compare_int f 0).
Proof.
  destruct f as [s|s| |s m e]; try reflexivity.
  - now destruct s.
  - unfold F64.opp, SFopp. rewrite !compare_int_finite_0. now destruct s.
Qed.

(** [-p > 0] exactly when [p < 0], NaN included. *)
Lemma py_gt_neg_0 p : py_gt (py_neg p) (VInt 0) = py_lt p (VInt 0).
Proof.
  unfold py_gt, py_lt, py_compare, py_neg.
  destruct (as_num p) as [a|f] eqn:Hp; cbn [as_num].
  - now destruct a.
  - rewrite compare_int_opp_0. now destruct (F64.compare_int f 0) as [[]|].
Qed.

Lemma spec_discharge_power_eq p :
  spec_discharge_power p = if py_lt p (VInt 0) then py_neg p else VInt 0.
Proof. unfold spec_discharge_power, py_max. now rewrite py_gt_neg_0. Qed.

Lemma finite_compare_refl s m e :
  SFcompare (S754_finite s m e) (S754_finite s m e) = Some Eq.
Proof.
  unfold SFcompare. rewrite Z.compare_refl, Pos.compare_cont_refl.
  now destruct s.
Qed.

(** The derived sensors recompute the power and then look at its sign. *)
Lemma discharge_via_power S :
  JBDCalculatedDischargePowerSensor.native_value S
  = obind (JBDCalculatedPowerSensor.native_value S) (fun p =>
      Return (if py_lt p (VInt 0) then py_neg p else VInt 0)).
Proof.
  unfold JBDCalculatedDischargePowerSensor.native_value,
    JBDCalculatedPowerSensor.native_value.
  destruct (getitem _ JBDBasicInfoSensor.BATTERY_VOLTAGE) as [mv|]; [|done].
  destruct (getitem _ JBDBasicInfoSensor.BATTERY_CURRENT) as [ma|]; [|done].
  cbn [obind].
  destruct (py_truediv mv _); [|done].
  destruct (py_truediv ma _); done.
Qed.

Lemma charge_via_power S :
  JBDCalculatedChargePowerSensor.native_value S
  = obind (JBDCalculatedPowerSensor.native_value S) (fun p =>
      Return (if py_gt p (VInt 0) then p else VInt 0)).
Proof.
  unfold JBDCalculatedChargePowerSensor.native_value,
    JBDCalculatedPowerSensor.native_value.
  destruct (getitem _ JBDBasicInfoSensor.BATTERY_VOLTAGE) as [mv|]; [|done].
  destruct (getitem _ JBDBasicInfoSensor.BATTERY_CURRENT) as [ma|]; [|done].
  cbn [obind].
  destruct (py_truediv mv _); [|done].
  destruct (py_truediv ma _); done.
Qed.

(** The power is always a float: both factors come out of a true division. *)
Lemma power_is_float S p :
  JBDCalculatedPowerSensor.native_value S = Return p -> exists f, p = VFloat f.
Proof.
  unfold JBDCalculatedPowerSensor.native_value.
  destruct (getitem _ JBDBasicInfoSensor.BATTERY_VOLTAGE) as [mv|]; [|done].
  destruct (getitem _ JBDBasicInfoSensor.BATTERY_CURRENT) as [ma|]; [|done].
  cbn [obind].
  assert (Hdiv : forall x q, py_truediv x (VInt 1000) = Return q ->
                             exists f, q = VFloat f).
  { intros x q. unfold py_truediv. cbn [as_num].
    destruct (as_num x) as [a|g].
    - destruct (F64.int_truediv a 1000); cbn [obind]; [|done].
      intros [= <-]. eauto.
    - destruct (F64.of_int 1000); cbn [obind]; [|done].
      destruct (F64.truediv g a); cbn [obind]; [|done].
      intros [= <-]. eauto. }
  destruct (py_truediv mv _) as [v|] eqn:Hv; [|done].
  destruct (py_truediv ma _) as [a|] eqn:Ha; [|done].
  apply Hdiv in Hv as [fv ->]. apply Hdiv in Ha as [fa ->].
  cbn. intros [= <-]. eauto.
Qed.

Lemma power_via_spec S mv ma :
  basic_info S !! "pack_mv" = Some mv ->
  basic_info S !! "pack_ma" = Some ma ->
  JBDCalculatedPowerSensor.native_value S = spec_power mv ma.
Proof.
  intros Hv Ha.
  unfold JBDCalculatedPowerSensor.native_value, getitem,
    JBDBasicInfoSensor.BATTERY_VOLTAGE, JBDBasicInfoSensor.BATTERY_CURRENT.
  now rewrite Hv, Ha.
Qed.

(* ===================================================================== *)
(** * The derived power projections                                       *)
(* ===================================================================== *)

(** C1. For every snapshot that contains [pack_mv] and [pack_ma], the power
    sensor yields [(pack_mv/1000) * (pack_ma/1000)], the discharge power
    sensor [max(0, -power)] and the charge power sensor [max(0, power)]; for
    [pack_mv = 25000] and [pack_ma = -2000] these are -50.0, 50.0 and 0. *)
Theorem power_projections (S : Snapshot) (mv ma : pyval) :
  basic_info S !! "pack_mv" = Some mv ->
  basic_info S !! "pack_ma" = Some ma ->
  JBDCalculatedPowerSensor.native_value S = spec_power mv ma /\
  JBDCalculatedDischargePowerSensor.native_value S
  = obind (spec_power mv ma) (fun p => Return (spec_discharge_power p)) /\
  JBDCalculatedChargePowerSensor.native_value S
  = obind (spec_power mv ma) (fun p => Return (spec_charge_power p)) /\
  (mv = VInt 25000 -> ma = VInt (-2000) ->
   JBDCalculatedPowerSensor.native_value S = Return (VFloat (F64.lit (-50))) /\
   JBDCalculatedDischargePowerSensor.native_value S
   = Return (VFloat (F64.lit 50)) /\
   JBDCalculatedChargePowerSensor.native_value S = Return (VInt 0)).
Proof.
  intros Hv Ha.
  pose proof (power_via_spec S mv ma Hv Ha) as Hp.
  rewrite discharge_via_power, charge_via_power, Hp.
  split; [reflexivity|]. split; [|split].
  - destruct (spec_power mv ma) as [p|]; [|reflexivity].
    cbn [obind]. now rewrite spec_discharge_power_eq.
  - reflexivity.
  - intros -> ->. now vm_compute.
Qed.

Lemma power_projections_charging :
  JBDCalculatedPowerSensor.native_value charging_snapshot
  = Return (VFloat (F64.lit (-50))) /\
  JBDCalculatedDischargePowerSensor.native_value charging_snapshot
  = Return (VFloat (F64.lit 50)) /\
  JBDCalculatedChargePowerSensor.native_value charging_snapshot
  = Return (VInt 0).
Proof.
  apply (power_projections charging_snapshot (VInt 25000) (VInt (-2000)));
    reflexivity.
Defined.

(** The claim C2 as worded fails on an idle pack: with a current of 0 both
    projections are 0, so neither is non-zero. *)
Lemma idle_pack_both_zero : ~ exactly_one_nonzero idle_snapshot.
Proof.
  intros (d & c & Hd & Hc & Hx).
  vm_compute in Hd, Hc.
  injection Hd as <-. injection Hc as <-.
  discriminate Hx.
Qed.

(** A second limit of the partition: ints so large that the product
    overflows to infinity make [discharge * charge] a NaN, which is not 0. *)
Lemma overflowing_power_product_is_nan :
  let S := {| basic_info := {[ "pack_mv" := VInt (10 ^ 200);
                               "pack_ma" := VInt (10 ^ 200) ]};
              cell_info := ∅ |} in
  JBDCalculatedPowerSensor.native_value S = Return (VFloat (S754_infinity false)) /\
  obind (JBDCalculatedDischargePowerSensor.native_value S) (fun d =>
  obind (JBDCalculatedChargePowerSensor.native_value S) (fun c =>
  obind (py_mul d c) (fun x => Return (x, py_eq x (VInt 0)))))
  = Return (VFloat S754_nan, false).
Proof. now vm_compute. Qed.

(** C2, amended. For every snapshot whose power is a finite number, at most
    one of discharge power and charge power is non-zero, and exactly one is
    when the power is not zero; their product equals 0 and charge power
    minus discharge power equals the power. *)
Theorem power_sign_partition (S : Snapshot) (f : spec_float) :
  JBDCalculatedPowerSensor.native_value S = Return (VFloat f) ->
  F64.is_finite f = true ->
  exists d c,
    JBDCalculatedDischargePowerSensor.native_value S = Return d /\
    JBDCalculatedChargePowerSensor.native_value S = Return c /\
    nonzero d && nonzero c = false /\
    xorb (nonzero d) (nonzero c) = nonzero (VFloat f) /\
    obind (py_mul d c) (fun x => Return (py_eq x (VInt 0))) = Return true /\
    obind (py_sub c d) (fun x => Return (py_eq x (VFloat f))) = Return true.
Proof.
  intros Hp Hfin.
  rewrite discharge_via_power, charge_via_power, Hp. cbn [obind].
  unfold nonzero, py_lt, py_gt, py_eq, py_compare. cbn [as_num].
  destruct f as [s|s| |s m e]; try discriminate Hfin.
  - eexists _, _. repeat split; reflexivity.
  - rewrite compare_int_finite_0.
    destruct s; eexists _, _; (split; [reflexivity|]); (split; [reflexivity|]);
      cbn [py_neg as_num F64.opp SFopp negb];
      rewrite ?compare_int_finite_0; cbn;
      rewrite ?Z.compare_refl, ?Pos.compare_cont_refl; repeat split; reflexivity.
Qed.

Lemma power_sign_partition_charging :
  exists d c,
    JBDCalculatedDischargePowerSensor.native_value charging_snapshot = Return d /\
    JBDCalculatedChargePowerSensor.native_value charging_snapshot = Return c /\
    nonzero d && nonzero c = false /\
    xorb (nonzero d) (nonzero c) = nonzero (VFloat (F64.lit (-50))) /\
    obind (py_mul d c) (fun x => Return (py_eq x (VInt 0))) = Return true /\
    obind (py_sub c d) (fun x => Return (py_eq x (VFloat (F64.lit (-50)))))
    = Return true.
Proof.
  apply (power_sign_partition charging_snapshot (F64.lit (-50))); reflexivity.
Defined.

(* ===================================================================== *)
(** * The key-based projections                                           *)
(* ===================================================================== *)

(** The claim C3 as worded fails on the cell voltage sensors, which are
    registered by the sensor platform: such a sensor divides by 1000 and
    rounds to 3 decimal places, not 2. With a cell at 3456 mV it shows
    3.456, where the worded projection gives 3.46 for the divisor 1000 (and
    the raw 3456 for the divisor 1). *)
Lemma cell_voltage_keeps_three_places :
  let e := CellVoltage (JBDCellVoltageSensor.init 0) in
  (exists registered,
     sensor_async_setup_entry Sim.snapshot0 = Return registered /\ In e registered) /\
  lookup_of e Sim.snapshot0 = Some (cell_info Sim.snapshot0, "cell0_mv") /\
  cell_info Sim.snapshot0 !! "cell0_mv" = Some (VInt 3456) /\
  read e Sim.snapshot0 = Return (VFloat (decimal 3456 3)) /\
  spec_project (cell_info Sim.snapshot0) "cell0_mv" 1000
  = Return (VFloat (decimal 346 2)) /\
  spec_project (cell_info Sim.snapshot0) "cell0_mv" 1 = Return (VInt 3456) /\
  read e Sim.snapshot0 <> spec_project (cell_info Sim.snapshot0) "cell0_mv" 1000 /\
  read e Sim.snapshot0 <> spec_project (cell_info Sim.snapshot0) "cell0_mv" 1.
Proof.
  cbv zeta. split.
  - eexists. split; [reflexivity|]. do 7 right. now left.
  - repeat split; try reflexivity; now vm_compute.
Qed.

(** C3, amended. For every snapshot and every key-based entity whose key is
    present in the mapping it reads, the value shown is computed from the raw
    value of that snapshot: a basic-info sensor shows the raw value when its
    divisor is 1 and [round(raw / divisor, 2)] otherwise, a cell voltage
    sensor shows [round(raw / 1000, 3)], a binary sensor the raw value. *)
Theorem projection_of_present_key (S : Snapshot) (e : Entity)
    (mapping : gmap string pyval) (key : string) (value : pyval) :
  lookup_of e S = Some (mapping, key) ->
  mapping !! key = Some value ->
  read e S = projected e value.
Proof.
  intros Hsrc Hval.
  destruct e as [s| | | |s|s]; try discriminate Hsrc;
    injection Hsrc as <- <-; cbn [read projected].
  - unfold JBDBasicInfoSensor.native_value, getitem. rewrite Hval. reflexivity.
  - unfold JBDCellVoltageSensor.native_value, getitem. rewrite Hval. reflexivity.
  - unfold JBDBasicInfoBinarySensor.is_on, getitem. rewrite Hval. reflexivity.
Qed.

Lemma projection_of_present_key_cell0 :
  read (CellVoltage (JBDCellVoltageSensor.init 0)) Sim.snapshot0
  = Return (VFloat (decimal 3456 3)).
Proof.
  apply (projection_of_present_key Sim.snapshot0
           (CellVoltage (JBDCellVoltageSensor.init 0))
           (cell_info Sim.snapshot0) "cell0_mv" (VInt 3456));
    reflexivity.
Defined.

(** A key that is absent from the mapping is reported, not defaulted. *)
Lemma projection_of_absent_key (S : Snapshot) (e : Entity)
    (mapping : gmap string pyval) (key : string) :
  lookup_of e S = Some (mapping, key) ->
  mapping !! key = None ->
  read e S = Raise (KeyError key).
Proof.
  intros Hsrc Hval.
  destruct e as [s| | | |s|s]; try discriminate Hsrc;
    injection Hsrc as <- <-; cbn [read].
  - unfold JBDBasicInfoSensor.native_value, getitem. now rewrite Hval.
  - unfold JBDCellVoltageSensor.native_value, getitem. now rewrite Hval.
  - unfold JBDBasicInfoBinarySensor.is_on, getitem. now rewrite Hval.
Qed.

(** On the basic-info sensors the worded projection is what the code does. *)
Lemma basic_info_sensor_is_spec_project (S : Snapshot) (s : JBDBasicInfoSensor.t) :
  JBDBasicInfoSensor.native_value s S
  = spec_project (basic_info S) (JBDBasicInfoSensor.key s)
      (JBDBasicInfoSensor.divisor s).
Proof. reflexivity. Qed.

(* ===================================================================== *)
(** * The poll cycle                                                      *)
(* ===================================================================== *)

Section PollCycle.
Context {D : Type} `{JBD D}.

(** Every path through [sync_update_data]: the calls made, the fact that
    the last transition of the device is that of [close], and the parts of
    the state that are not touched. *)
Lemma sync_update_data_run (w : World D) :
  let w' := snd (sync_update_data w) in
  (exists t, calls w' = calls w ++ t /\ cycle_trace t) /\
  (exists d, device w' = snd (jbd_close d)) /\
  coordinator w' = coordinator w /\
  entries w' = entries w /\
  init_info w' = init_info w.
Proof.
  unfold sync_update_data, bind, try_finally, ret, client_open,
    client_readBasicInfo, client_readCellInfo, client_close, client_call,
    cycle_trace.
  cbn [device calls].
  destruct (jbd_open (device w)) as [[[]|e1] d1]; cbn.
  1: destruct (jbd_readBasicInfo d1) as [[b|e2] d2]; cbn.
  1: destruct (jbd_readCellInfo d2) as [[c|e3] d3]; cbn.
  all: match goal with |- context [jbd_close ?d] =>
         destruct (jbd_close d) as [[[]|e4] d4] eqn:Hc end; cbn.
  all: rewrite <- ?app_assoc; cbn [app].
  all: split;
    [eexists; split; [reflexivity|];
     first [ exists [CreadBasicInfo; CreadCellInfo]; split; [reflexivity|tauto]
           | exists [CreadBasicInfo]; split; [reflexivity|tauto]
           | exists []; split; [reflexivity|tauto] ] |].
  all: split; [|tauto].
  all: match type of Hc with jbd_close ?d = _ => exists d end; now rewrite Hc.
Qed.

End PollCycle.

Section PollCycleClaims.
Context {D : Type} `{JBD D}.

(** C7. Every execution of the poll cycle, whatever the device does and
    whichever call raises, calls [close] as its last client call (after
    [open] and the reads that were reached), so that the last transition of
    the device is the one of [close]; with a client whose [close] leaves the
    link closed, the link is closed when the cycle exits. *)
Theorem poll_cycle_closes_link (w : World D) :
  let w' := snd (sync_update_data w) in
  (exists t, calls w' = calls w ++ t /\ cycle_trace t) /\
  (exists d, device w' = snd (jbd_close d)) /\
  (close_closes -> jbd_is_open (device w') = false).
Proof.
  destruct (sync_update_data_run w) as (Ht & [d Hd] & _).
  cbv zeta. split; [exact Ht|]. split; [now exists d|].
  intros Hclose. rewrite Hd. apply Hclose.
Qed.

(** The outcome of the cycle's [try] statement when [close] returns. *)
Lemma sync_update_data_outcome (w : World D) :
  close_is_safe ->
  (a_read_fails w -> fst (sync_update_data w) = Raise BMSError) /\
  (forall b c, reads_return w b c ->
     fst (sync_update_data w) = Return {| basic_info := b; cell_info := c |}).
Proof.
  intros Hsafe.
  unfold sync_update_data, bind, try_finally, ret, client_open,
    client_readBasicInfo, client_readCellInfo, client_close, client_call.
  cbn [device calls].
  split.
  - intros (d1 & Ho & Hr). rewrite Ho. cbn.
    destruct Hr as [Hb | (b & d2 & Hb & Hc)].
    + destruct (jbd_readBasicInfo d1) as [rb d2]. cbn in Hb. subst rb. cbn.
      specialize (Hsafe d2). destruct (jbd_close d2) as [rc d3].
      cbn in Hsafe. now subst rc.
    + rewrite Hb. cbn.
      destruct (jbd_readCellInfo d2) as [rc d3]. cbn in Hc. subst rc. cbn.
      specialize (Hsafe d3). destruct (jbd_close d3) as [rc d4].
      cbn in Hsafe. now subst rc.
  - intros b c (d1 & d2 & d3 & Ho & Hb & Hc). rewrite Ho. cbn.
    rewrite Hb. cbn. rewrite Hc. cbn.
    specialize (Hsafe d3). destruct (jbd_close d3) as [rc d4].
    cbn in Hsafe. now subst rc.
Qed.

(** A refresh never changes the published snapshot unless the update
    returned one. *)
Lemma refresh_after_failure (w : World D) (e : exn) :
  fst (async_update_data w) = Raise e ->
  coordinator (snd (coordinator_async_refresh w))
  = {| coordinator_data := coordinator_data (coordinator w);
       last_update_success := false |}.
Proof.
  unfold coordinator_async_refresh, async_update_data, try_except_BMSError, raise.
  pose proof (sync_update_data_run w) as (_ & _ & Hco & _).
  destruct (sync_update_data w) as [[s|e'] w1]; cbn in *; [discriminate|].
  intros _. destruct e'; cbn; now rewrite Hco.
Qed.

(** C6. With a client whose [close] returns: a poll cycle in which one of
    the two register reads raises the communication error fails as a whole
    with [UpdateFailed], and the refresh publishes nothing, so that the
    previously published snapshot stays current; a cycle whose two reads
    return yields the snapshot made of exactly these two mappings, which the
    refresh publishes. *)
Theorem poll_cycle_atomic (w : World D) :
  close_is_safe ->
  (a_read_fails w ->
     fst (async_update_data w) = Raise (UpdateFailed "BMS communication error") /\
     coordinator_data (coordinator (snd (coordinator_async_refresh w)))
     = coordinator_data (coordinator w) /\
     last_update_success (coordinator (snd (coordinator_async_refresh w))) = false) /\
  (forall b c, reads_return w b c ->
     fst (async_update_data w) = Return {| basic_info := b; cell_info := c |} /\
     coordinator_data (coordinator (snd (coordinator_async_refresh w)))
     = Some {| basic_info := b; cell_info := c |}).
Proof.
  intros Hsafe.
  destruct (sync_update_data_outcome w Hsafe) as [Hfail Hok].
  split.
  - intros Hr. specialize (Hfail Hr).
    assert (Hup : fst (async_update_data w)
                  = Raise (UpdateFailed "BMS communication error")).
    { unfold async_update_data, try_except_BMSError, raise.
      destruct (sync_update_data w) as [r w1]. cbn in Hfail. now subst r. }
    split; [exact Hup|].
    now rewrite (refresh_after_failure w _ Hup).
  - intros b c Hr. specialize (Hok b c Hr).
    assert (Hup : fst (async_update_data w)
                  = Return {| basic_info := b; cell_info := c |}).
    { unfold async_update_data, try_except_BMSError.
      destruct (sync_update_data w) as [r w1]. cbn in Hok. now subst r. }
    split; [exact Hup|].
    unfold coordinator_async_refresh.
    destruct (async_update_data w) as [r w1]. cbn in Hup. now subst r.
Qed.

End PollCycleClaims.

Lemma sim_close_is_safe : close_is_safe (D := Sim.t).
Proof. intros d. reflexivity. Qed.

Lemma sim_close_closes : close_closes (D := Sim.t).
Proof. intros d. reflexivity. Qed.

Lemma poll_cycle_closes_link_on_failure :
  jbd_is_open (device (snd (sync_update_data failing_read_world))) = false.
Proof.
  apply (proj2 (proj2 (poll_cycle_closes_link failing_read_world))).
  exact sim_close_closes.
Defined.

Example failing_read_cycle_calls :
  sync_update_data failing_read_world
  = (Raise BMSError,
     {| device := Sim.device0;
        calls := [Copen; CreadBasicInfo; Cclose];
        coordinator := coordinator failing_read_world;
        entries := []; init_info := Sim.info0 |}).
Proof. reflexivity. Qed.

Lemma poll_cycle_atomic_on_sim :
  (fst (async_update_data failing_read_world)
   = Raise (UpdateFailed "BMS communication error") /\
   coordinator_data (coordinator (snd (coordinator_async_refresh failing_read_world)))
   = coordinator_data (coordinator failing_read_world) /\
   last_update_success
     (coordinator (snd (coordinator_async_refresh failing_read_world))) = false) /\
  (fst (async_update_data healthy_world)
   = Return {| basic_info := Sim.basic Sim.device0;
               cell_info := Sim.cells Sim.device0 |} /\
   coordinator_data (coordinator (snd (coordinator_async_refresh healthy_world)))
   = Some {| basic_info := Sim.basic Sim.device0;
             cell_info := Sim.cells Sim.device0 |}).
Proof.
  split.
  - apply (proj1 (poll_cycle_atomic failing_read_world sim_close_is_safe)).
    eexists. split; [reflexivity|]. left. reflexivity.
  - apply (proj2 (poll_cycle_atomic healthy_world sim_close_is_safe)).
    do 3 eexists. repeat split; reflexivity.
Defined.

(* ===================================================================== *)
(** * The toggles                                                         *)
(* ===================================================================== *)

Section ToggleClaims.
Context {D : Type} `{JBD D}.

Lemma bind_run {A B} (m : M D A) (k : A -> M D B) (w : World D) :
  bind m k w = match m w with
               | (Return a, w') => k a w'
               | (Raise e, w') => (Raise e, w')
               end.
Proof. reflexivity. Qed.

Lemma cycle_trace_no_write (t : list call) :
  cycle_trace t -> Forall (fun c => is_write c = false) t.
Proof.
  intros (reads & -> & [-> | [-> | ->]]); repeat constructor.
Qed.

Lemma reads_no_write (k : nat) :
  Forall (fun c => is_write c = false) (repeat CreadBasicInfo k).
Proof. induction k; cbn; constructor; auto. Qed.

(** The wait loop only reads the basic registers: at least once, and at most
    once more than [attempts]. *)
Lemma settle_loop_run (test : pyval -> bool) (key : string) (attempts : nat)
    (w : World D) :
  let w' := snd (settle_loop test key attempts w) in
  (exists k, (1 <= k <= S attempts)%nat /\
             calls w' = calls w ++ repeat CreadBasicInfo k) /\
  coordinator w' = coordinator w.
Proof.
  revert w. induction attempts as [|n IH]; intros w; cbn [settle_loop];
    rewrite bind_run; unfold client_readBasicInfo, client_call;
    destruct (jbd_readBasicInfo (device w)) as [[info|e] d1];
    try (cbn; split; [exists 1%nat; split; [lia|reflexivity] | reflexivity]).
  all: rewrite bind_run; unfold lift;
    destruct (getitem info key) as [flag|e];
    try (cbn; split; [exists 1%nat; split; [lia|reflexivity] | reflexivity]).
  all: destruct (test flag);
    try (cbn; split; [exists 1%nat; split; [lia|reflexivity] | reflexivity]).
  match goal with |- context [settle_loop test key n ?w1] =>
    destruct (IH w1) as [(k & Hk & Hcalls) Hco] end.
  cbv zeta. split.
  - exists (S k). split; [lia|]. rewrite Hcalls. cbn [calls repeat].
    now rewrite <- app_assoc.
  - now rewrite Hco.
Qed.

(** The loop stops at the first read whose flag fails the test. *)
Lemma settle_loop_stops_at_match (test : pyval -> bool) (key : string)
    (attempts : nat) (w : World D) (info : gmap string pyval) (d1 : D)
    (flag : pyval) :
  jbd_readBasicInfo (device w) = (Return info, d1) ->
  info !! key = Some flag ->
  test flag = false ->
  settle_loop test key attempts w
  = (Return tt,
     {| device := d1; calls := calls w ++ [CreadBasicInfo];
        coordinator := coordinator w; entries := entries w;
        init_info := init_info w |}).
Proof.
  intros Hread Hflag Htest.
  destruct attempts; cbn [settle_loop];
    rewrite bind_run; unfold client_readBasicInfo, client_call; rewrite Hread;
    rewrite bind_run; unfold lift, getitem; rewrite Hflag, Htest; reflexivity.
Qed.

(** A read whose flag passes the test costs one attempt; with none left the
    loop ends after that read. *)
Lemma settle_loop_goes_on (test : pyval -> bool) (key : string)
    (attempts : nat) (w : World D) (info : gmap string pyval) (d1 : D)
    (flag : pyval) :
  jbd_readBasicInfo (device w) = (Return info, d1) ->
  info !! key = Some flag ->
  test flag = true ->
  let w1 := {| device := d1; calls := calls w ++ [CreadBasicInfo];
               coordinator := coordinator w; entries := entries w;
               init_info := init_info w |} in
  settle_loop test key attempts w
  = match attempts with
    | S attempts' => settle_loop test key attempts' w1
    | O => (Return tt, w1)
    end.
Proof.
  intros Hread Hflag Htest.
  destruct attempts; cbn [settle_loop];
    rewrite bind_run; unfold client_readBasicInfo, client_call; rewrite Hread;
    rewrite bind_run; unfold lift, getitem; rewrite Hflag, Htest; reflexivity.
Qed.

Lemma coordinator_async_refresh_run (w : World D) :
  exists t, calls (snd (coordinator_async_refresh w)) = calls w ++ t /\
            cycle_trace t.
Proof.
  destruct (sync_update_data_run w) as ((t & Ht & Hc) & _).
  exists t. split; [|exact Hc]. rewrite <- Ht.
  unfold coordinator_async_refresh, async_update_data, try_except_BMSError, raise.
  destruct (sync_update_data w) as [[s|e] w1]; [reflexivity|].
  now destruct e.
Qed.

(** Write, wait, refresh: the tail shared by the four operations. The write
    is the first call and the only write. *)
Lemma write_settle_refresh_run (c g : pyval) (test : pyval -> bool)
    (key : string) (w : World D) :
  exists rest,
    calls (snd (bind (client_chgDsgEnable c g) (fun _ =>
                bind (settle_loop test key 5) (fun _ =>
                coordinator_async_refresh)) w))
    = calls w ++ CchgDsgEnable c g :: rest /\
    Forall (fun c => is_write c = false) rest.
Proof.
  rewrite bind_run. unfold client_chgDsgEnable, client_call.
  destruct (jbd_chgDsgEnable c g (device w)) as [[[]|e] d1].
  2: { exists []. split; [reflexivity|constructor]. }
  rewrite bind_run.
  match goal with |- context [settle_loop test key 5 ?w1] =>
    destruct (settle_loop_run test key 5 w1) as [(k & _ & Hk) _];
    destruct (settle_loop test key 5 w1) as [[[]|e] w2] end;
    cbn [snd calls] in Hk.
  - destruct (coordinator_async_refresh_run w2) as (t & Ht & Hc).
    exists (repeat CreadBasicInfo k ++ t). split.
    + rewrite Ht, Hk, <- !app_assoc. reflexivity.
    + apply Forall_app. split; [apply reads_no_write|].
      now apply cycle_trace_no_write.
  - exists (repeat CreadBasicInfo k). split.
    + cbn [snd]. rewrite Hk, <- !app_assoc. reflexivity.
    + apply reads_no_write.
Qed.

(** C4. For each of the two toggles and each desired value: when the current
    snapshot holds the sibling flag, the first call of the operation is the
    combined write, it carries for the sibling flag the value held by the
    snapshot (nothing was read from the device before), and the operation
    makes no other write. *)
Theorem toggle_write_keeps_sibling (t : toggle) (desired : bool)
    (w : World D) (snapshot : Snapshot) (sibling : pyval) :
  coordinator_data (coordinator w) = Some snapshot ->
  basic_info snapshot !! sibling_key t = Some sibling ->
  exists rest,
    calls (snd (toggle_set t desired w))
    = calls w ++ combined_write t desired sibling :: rest /\
    Forall (fun c => is_write c = false) rest.
Proof.
  intros Hsnap Hsib.
  destruct t, desired; cbn [toggle_set combined_write sibling_key] in *;
    unfold JBDChargeToggle.async_turn_on, JBDChargeToggle.async_turn_off,
      JBDDischargeToggle.async_turn_on, JBDDischargeToggle.async_turn_off;
    rewrite bind_run; unfold coordinator_basic_info at 1; rewrite Hsnap;
    rewrite bind_run; unfold lift at 1, getitem; rewrite Hsib;
    apply write_settle_refresh_run.
Qed.

End ToggleClaims.

Lemma toggle_write_keeps_sibling_on_sim :
  exists rest,
    calls (snd (toggle_set Charge true healthy_world))
    = calls healthy_world ++ combined_write Charge true (VBool true) :: rest /\
    Forall (fun c => is_write c = false) rest.
Proof.
  apply (toggle_write_keeps_sibling Charge true healthy_world Sim.snapshot0
           (VBool true)); reflexivity.
Defined.

(** On the simulated device: charging is switched on while discharging is
    on; the write carries discharging on, the wait is over after one read,
    and the refreshed snapshot shows both flags on. *)
Example charge_on_keeps_discharge_on :
  let w' := snd (JBDChargeToggle.async_turn_on healthy_world) in
  calls w' = [CchgDsgEnable (VBool true) (VBool true); CreadBasicInfo;
              Copen; CreadBasicInfo; CreadCellInfo; Cclose] /\
  fst (JBDDischargeToggle.is_on w') = Return (VBool true) /\
  fst (JBDChargeToggle.is_on w') = Return (VBool true).
Proof. repeat split; reflexivity. Qed.

(** C5, evaluated on a device that never reports the flag: the wait after
    the write reads the basic registers six times, not five. The loop body
    runs five times; as the condition reads before it looks at the counter,
    the condition is evaluated, and the device read, a sixth time. *)
Theorem settle_loop_reads_six_times :
  calls (snd (settle_loop (fun flag => negb (py_truthy flag))
                JBDBasicInfoSensor.CHARGING_ENABLED 5 stuck_world))
  = repeat CreadBasicInfo 6 /\
  calls (snd (JBDChargeToggle.async_turn_on stuck_world))
  = CchgDsgEnable (VBool true) (VBool true)
    :: repeat CreadBasicInfo 6 ++ [Copen; CreadBasicInfo; CreadCellInfo; Cclose].
Proof. split; reflexivity. Qed.

(* ===================================================================== *)
(** * The config flow                                                     *)
(* ===================================================================== *)

(** ** Searching a range *)

Lemma in_range_from (lo : Z) (len : nat) (n : Z) :
  In n (range_from lo len) <-> lo <= n < lo + Z.of_nat len.
Proof.
  revert lo. induction len as [|len IH]; intros lo; cbn [range_from In].
  - lia.
  - rewrite IH. lia.
Qed.

(** [find] on a range yields the lowest element that passes the test. *)
Lemma find_range_from_some (f : Z -> bool) (lo : Z) (len : nat) (n : Z) :
  find f (range_from lo len) = Some n ->
  lo <= n < lo + Z.of_nat len /\ f n = true /\
  forall m, lo <= m < n -> f m = false.
Proof.
  revert lo. induction len as [|len IH]; intros lo; cbn [range_from find].
  - discriminate.
  - destruct (f lo) eqn:Hlo.
    + intros [= <-]. repeat split; [lia | lia | exact Hlo | lia].
    + intros Hfind. destruct (IH _ Hfind) as (Hn & Hfn & Hmin).
      repeat split; [lia | lia | exact Hfn |].
      intros m Hm. destruct (Z.eq_dec m lo) as [->|Hne]; [exact Hlo|].
      apply Hmin. lia.
Qed.

Lemma find_range_from_none (f : Z -> bool) (lo : Z) (len : nat) :
  find f (range_from lo len) = None <->
  forall m, lo <= m < lo + Z.of_nat len -> f m = false.
Proof.
  revert lo. induction len as [|len IH]; intros lo; cbn [range_from find].
  - split; [lia | reflexivity].
  - destruct (f lo) eqn:Hlo.
    + split; [discriminate|]. intros Hall.
      rewrite Hall in Hlo by lia. discriminate.
    + rewrite IH. split; intros Hall m Hm.
      * destruct (Z.eq_dec m lo) as [->|Hne]; [exact Hlo|]. apply Hall. lia.
      * apply Hall. lia.
Qed.

Lemma py_in_true (x : Z) (l : list Z) : py_in x l = true <-> In x l.
Proof.
  unfold py_in. rewrite existsb_exists. split.
  - intros (y & Hy & Heq). apply Z.eqb_eq in Heq. now subst.
  - intros Hx. exists x. split; [exact Hx | apply Z.eqb_refl].
Qed.

(** ** The steps of the flow *)

Section FlowClaims.
Context {D : Type} `{JBD D}.
Variable config_entry_getitem : ConfigEntry -> string -> outcome Z.

(** The search touches nothing. *)
Lemma get_next_pure (w : World D) :
  snd (BMSToolsConfigFlow.get_next_available_serial_number
         config_entry_getitem w) = w.
Proof. reflexivity. Qed.

(** A serial number found by the search is in [1, 65535]. *)
Lemma get_next_in_range (w : World D) (n : Z) :
  fst (BMSToolsConfigFlow.get_next_available_serial_number
         config_entry_getitem w) = Return (Some n) ->
  1 <= n <= 65535.
Proof.
  unfold BMSToolsConfigFlow.get_next_available_serial_number. cbn [fst].
  destruct (BMSToolsConfigFlow.taken_serial_nums _ _) as [taken|e];
    cbn [obind]; [|discriminate].
  remember (find _ _) as r eqn:Hfind.
  intros [= ->]. symmetry in Hfind.
  unfold py_range in Hfind.
  apply find_range_from_some in Hfind as (Hn & _).
  rewrite Z2Nat.id in Hn by lia. lia.
Qed.


(** Any other exception of the write leaves [write_serial_number]. *)
Lemma write_serial_number_propagates (n : Z) (w : World D) (e : exn) :
  fst (jbd_writeReg JBD_REG_SERIAL_NUM n (device w)) = Raise e ->
  e <> BMSError ->
  fst (BMSToolsConfigFlow.write_serial_number n w) = Raise e.
Proof.
  unfold BMSToolsConfigFlow.write_serial_number, try_except_BMSError,
    client_writeReg, client_call.
  destruct (jbd_writeReg JBD_REG_SERIAL_NUM n (device w)) as [r d1]. cbn [fst].
  intros -> Hne. now destruct e.
Qed.

(** C8, amended. When the device reports the serial number 0 and the user
    denies consent, the flow does not abort: it shows the form [serial_number]
    again with the error [must_give_consent]; the state is left as it was, so
    no serial number is assigned and nothing is written to the device. *)
Theorem denied_consent_shows_form_again (w : World D)
    (input : gmap string pyval) (consent : pyval) :
  input !! "consent" = Some consent ->
  py_truthy consent = false ->
  serial_number (init_info w) = 0 ->
  BMSToolsConfigFlow.async_step_serial_number config_entry_getitem
    (Some input) w
  = (Return (FlowForm "serial_number" {[ "base" := "must_give_consent" ]}), w).
Proof.
  intros Hin Hno Hzero.
  unfold BMSToolsConfigFlow.async_step_serial_number.
  rewrite bind_run, bind_run. unfold lift at 1, getitem. rewrite Hin, Hno.
  unfold ret at 1. now rewrite Hzero.
Qed.

(** The flow never hands back the abort [serial_numbers_exhausted]: the only
    place that builds it drops it. *)
Lemma step_never_aborts_exhausted (input : option (gmap string pyval))
    (w : World D) :
  fst (BMSToolsConfigFlow.async_step_serial_number config_entry_getitem
         input w)
  <> Return (FlowAbort "serial_numbers_exhausted").
Proof.
  unfold BMSToolsConfigFlow.async_step_serial_number.
  rewrite bind_run.
  match goal with |- context [match ?m w with _ => _ end] =>
    destruct (m w) as [[errors|e] w1] end; [|discriminate].
  destruct (serial_number (init_info w1) =? 0); [discriminate|].
  destruct (existsb _ _); discriminate.
Qed.


End FlowClaims.

(** ** The search under the two readings of the subscript *)

Section SearchReadings.
Context {D : Type} `{JBD D}.

Lemma taken_serial_nums_as_data (existing : list ConfigEntry) :
  BMSToolsConfigFlow.taken_serial_nums subscript_as_data existing
  = Return (map (fun e => serial_number (data e)) existing).
Proof.
  induction existing as [|e es IH]; cbn [BMSToolsConfigFlow.taken_serial_nums map].
  - reflexivity.
  - rewrite IH. unfold subscript_as_data.
    rewrite decide_True by reflexivity. reflexivity.
Qed.

(** Read as [data], the search yields the lowest number of [1, 65535] that
    no configured entry holds. *)
Lemma next_serial_is_lowest_unused (w : World D) (n : Z) :
  fst (BMSToolsConfigFlow.get_next_available_serial_number subscript_as_data w)
  = Return (Some n) ->
  1 <= n <= 65535 /\
  (forall e, In e (entries w) -> serial_number (data e) <> n) /\
  (forall m, 1 <= m < n ->
     exists e, In e (entries w) /\ serial_number (data e) = m).
Proof.
  unfold BMSToolsConfigFlow.get_next_available_serial_number. cbn [fst].
  rewrite taken_serial_nums_as_data. cbn [obind].
  remember (find _ _) as r eqn:Hfind.
  intros [= ->]. symmetry in Hfind. unfold py_range in Hfind.
  apply find_range_from_some in Hfind as (Hn & Hfree & Hmin).
  rewrite Z2Nat.id in Hn by lia.
  split; [lia|]. split.
  - intros e He Heq. apply negb_true_iff, not_true_iff_false in Hfree.
    apply Hfree, py_in_true, in_map_iff. now exists e.
  - intros m Hm. specialize (Hmin m Hm).
    apply negb_false_iff, py_in_true, in_map_iff in Hmin as (e & Heq & He).
    now exists e.
Qed.

(** Read as [data], the search yields nothing when every number of
    [1, 65535] is held by a configured entry. *)
Lemma no_serial_left (w : World D) :
  (forall m, 1 <= m <= 65535 ->
     exists e, In e (entries w) /\ serial_number (data e) = m) ->
  BMSToolsConfigFlow.get_next_available_serial_number subscript_as_data w
  = (Return None, w).
Proof.
  intros Hall.
  unfold BMSToolsConfigFlow.get_next_available_serial_number.
  rewrite taken_serial_nums_as_data. cbn [obind].
  unfold py_range.
  replace (find _ _) with (@None Z); [reflexivity|].
  symmetry. apply find_range_from_none. intros m Hm.
  rewrite Z2Nat.id in Hm by lia.
  apply negb_false_iff, py_in_true, in_map_iff.
  destruct (Hall m) as (e & He & Heq); [lia|]. now exists e.
Qed.

(** With a subscript that the host's class does not support, the search, and
    with it the flow, raises as soon as one entry is configured. *)
Lemma unsupported_subscript_raises (w : World D) (e : ConfigEntry)
    (es : list ConfigEntry) (input : gmap string pyval) (consent : pyval) :
  entries w = e :: es ->
  input !! "consent" = Some consent ->
  py_truthy consent = true ->
  BMSToolsConfigFlow.async_step_serial_number subscript_unsupported
    (Some input) w
  = (Raise TypeError, w).
Proof.
  intros Hes Hin Hyes.
  unfold BMSToolsConfigFlow.async_step_serial_number.
  rewrite bind_run, bind_run. unfold lift at 1, getitem. rewrite Hin, Hyes.
  rewrite bind_run.
  unfold BMSToolsConfigFlow.get_next_available_serial_number.
  now rewrite Hes.
Qed.

(** Read as [data] and with every number taken, a consenting user whose
    device reports 0 gets the consent form back, without an error. *)
Lemma exhausted_search_falls_through (w : World D)
    (input : gmap string pyval) (consent : pyval) :
  (forall m, 1 <= m <= 65535 ->
     exists e, In e (entries w) /\ serial_number (data e) = m) ->
  input !! "consent" = Some consent ->
  py_truthy consent = true ->
  serial_number (init_info w) = 0 ->
  BMSToolsConfigFlow.async_step_serial_number subscript_as_data
    (Some input) w
  = (Return (FlowForm "serial_number" ∅), w).
Proof.
  intros Hall Hin Hyes Hzero.
  unfold BMSToolsConfigFlow.async_step_serial_number.
  rewrite bind_run, bind_run. unfold lift at 1, getitem. rewrite Hin, Hyes.
  rewrite bind_run, (no_serial_left w Hall).
  cbn [truthy_opt]. unfold ret at 1. now rewrite Hzero.
Qed.

End SearchReadings.

Lemma all_serials_taken_covers (m : Z) :
  1 <= m <= 65535 ->
  exists e, In e all_serials_taken /\ serial_number (data e) = m.
Proof.
  intros Hm. exists (entry_with_serial m). split; [|reflexivity].
  unfold all_serials_taken. apply in_map. unfold py_range.
  apply in_range_from. rewrite Z2Nat.id by lia. lia.
Qed.

(** The claim C8 as worded fails: with the serial number 0 and consent
    denied the flow hands back a form, not an abort. *)
Lemma denied_consent_is_not_an_abort :
  serial_number (init_info healthy_world) = 0 /\
  BMSToolsConfigFlow.async_step_serial_number subscript_as_data
    (Some (consent_form false)) healthy_world
  = (Return (FlowForm "serial_number" {[ "base" := "must_give_consent" ]}),
     healthy_world) /\
  fst (BMSToolsConfigFlow.async_step_serial_number subscript_as_data
         (Some (consent_form false)) healthy_world)
  <> Return (FlowAbort "must_give_consent").
Proof. split; [reflexivity|]. split; [reflexivity|]. now vm_compute. Qed.

Lemma denied_consent_shows_form_again_on_sim :
  BMSToolsConfigFlow.async_step_serial_number subscript_as_data
    (Some (consent_form false)) healthy_world
  = (Return (FlowForm "serial_number" {[ "base" := "must_give_consent" ]}),
     healthy_world).
Proof.
  apply (denied_consent_shows_form_again subscript_as_data healthy_world
           (consent_form false) (VBool false)); reflexivity.
Defined.

(** C9, evaluated where every serial number from 1 to 65535 is taken (the
    subscript read as [data]): the device reports 0 and the user consents,
    yet the flow does not abort with [serial_numbers_exhausted]; it drops
    the abort, assigns nothing, and shows the consent form again without an
    error. *)
Theorem exhausted_serials_show_form_again :
  let w := Sim.world Sim.device0 all_serials_taken in
  BMSToolsConfigFlow.async_step_serial_number subscript_as_data
    (Some (consent_form true)) w
  = (Return (FlowForm "serial_number" ∅), w).
Proof.
  exact (exhausted_search_falls_through
           (Sim.world Sim.device0 all_serials_taken)
           (consent_form true) (VBool true)
           all_serials_taken_covers eq_refl eq_refl eq_refl).
Qed.



(* ===================================================================== *)
(** * Further properties of the sensors                                   *)
(* ===================================================================== *)

Lemma py_lt_neg_of_lt p : py_lt p (VInt 0) = true -> py_lt (py_neg p) (VInt 0) = false.
Proof.
  unfold py_lt, py_compare, py_neg.
  destruct (as_num p) as [a|f]; cbn [as_num].
  - now destruct a.
  - rewrite compare_int_opp_0. now destruct (F64.compare_int f 0) as [[]|].
Qed.

Lemma py_lt_of_gt p : py_gt p (VInt 0) = true -> py_lt p (VInt 0) = false.
Proof.
  unfold py_lt, py_gt. now destruct (py_compare p (VInt 0)) as [[]|].
Qed.

(** X1. Neither the discharge power nor the charge power is ever negative,
    whatever the snapshot holds (NaN and infinite powers included). *)
Theorem derived_power_never_negative (S : Snapshot) :
  match JBDCalculatedDischargePowerSensor.native_value S with
  | Return d => py_lt d (VInt 0) = false
  | Raise _ => True
  end /\
  match JBDCalculatedChargePowerSensor.native_value S with
  | Return c => py_lt c (VInt 0) = false
  | Raise _ => True
  end.
Proof.
  rewrite discharge_via_power, charge_via_power.
  destruct (JBDCalculatedPowerSensor.native_value S) as [p|e]; cbn [obind];
    [|tauto].
  split.
  - destruct (py_lt p (VInt 0)) eqn:Hlt; [now apply py_lt_neg_of_lt | reflexivity].
  - destruct (py_gt p (VInt 0)) eqn:Hgt; [now apply py_lt_of_gt | reflexivity].
Qed.

(** X2. The two derived sensors fail exactly when the power sensor fails, and
    with the same exception. *)
Theorem derived_sensors_fail_alike (S : Snapshot) :
  match JBDCalculatedPowerSensor.native_value S with
  | Raise e =>
      JBDCalculatedDischargePowerSensor.native_value S = Raise e /\
      JBDCalculatedChargePowerSensor.native_value S = Raise e
  | Return p =>
      exists d c,
        JBDCalculatedDischargePowerSensor.native_value S = Return d /\
        JBDCalculatedChargePowerSensor.native_value S = Return c
  end.
Proof.
  rewrite discharge_via_power, charge_via_power.
  destruct (JBDCalculatedPowerSensor.native_value S) as [p|e]; cbn [obind];
    eauto.
Qed.

(** X3. A snapshot without [pack_mv] makes the three power sensors raise
    [KeyError] for [pack_mv], also when [pack_ma] is missing too; with
    [pack_mv] present and [pack_ma] missing the error names [pack_ma]. *)
Theorem power_sensors_report_missing_key (S : Snapshot) (missing : string) :
  (basic_info S !! "pack_mv" = None /\ missing = "pack_mv") \/
  (is_Some (basic_info S !! "pack_mv") /\ basic_info S !! "pack_ma" = None /\
   missing = "pack_ma") ->
  JBDCalculatedPowerSensor.native_value S = Raise (KeyError missing) /\
  JBDCalculatedDischargePowerSensor.native_value S = Raise (KeyError missing) /\
  JBDCalculatedChargePowerSensor.native_value S = Raise (KeyError missing).
Proof.
  intros Hmiss.
  assert (Hp : JBDCalculatedPowerSensor.native_value S = Raise (KeyError missing)).
  { unfold JBDCalculatedPowerSensor.native_value, getitem,
      JBDBasicInfoSensor.BATTERY_VOLTAGE, JBDBasicInfoSensor.BATTERY_CURRENT.
    destruct Hmiss as [[Hv ->] | ([v Hv] & Ha & ->)].
    - now rewrite Hv.
    - now rewrite Hv, Ha. }
  rewrite discharge_via_power, charge_via_power, Hp. auto.
Qed.

Lemma power_sensors_report_missing_key_on_empty :
  let S := {| basic_info := ∅; cell_info := ∅ |} in
  JBDCalculatedPowerSensor.native_value S = Raise (KeyError "pack_mv") /\
  JBDCalculatedDischargePowerSensor.native_value S = Raise (KeyError "pack_mv") /\
  JBDCalculatedChargePowerSensor.native_value S = Raise (KeyError "pack_mv").
Proof.
  apply (power_sensors_report_missing_key {| basic_info := ∅; cell_info := ∅ |}).
  left. split; reflexivity.
Defined.

(** ** The cell voltage in volts *)

Lemma forallb_range_from (f : Z -> bool) (lo : Z) (len : nat) :
  forallb f (range_from lo len) = true ->
  forall m, lo <= m < lo + Z.of_nat len -> f m = true.
Proof.
  revert lo. induction len as [|len IH]; intros lo; cbn [range_from forallb].
  - lia.
  - intros [Hlo Hrest]%andb_true_iff m Hm.
    destruct (Z.eq_dec m lo) as [->|Hne]; [exact Hlo|].
    apply (IH _ Hrest). lia.
Qed.

Lemma forallb_py_range (f : Z -> bool) (lo hi : Z) :
  forallb f (py_range lo hi) = true ->
  forall m, lo <= m < hi -> f m = true.
Proof.
  unfold py_range. intros Hall m Hm.
  apply (forallb_range_from _ _ _ Hall). rewrite Z2Nat.id by lia. lia.
Qed.

(** Rounding to the nearest integer, when the quotient is nearer to [n]
    than one half. *)
Lemma div_half_even_near (num den n : Z) :
  0 < den -> 2 * Z.abs (num - n * den) < den ->
  F64.div_half_even num den = n.
Proof.
  intros Hden Hnear. unfold F64.div_half_even.
  pose proof (Z.div_mod num den ltac:(lia)) as Hdm.
  pose proof (Z.mod_pos_bound num den Hden) as Hr.
  set (q := num / den) in *. set (r := num mod den) in *.
  assert (Hdiff : num - n * den = den * (q - n) + r) by lia.
  rewrite Hdiff in Hnear. clear Hdiff Hdm.
  assert (Hcases : q - n <= -2 \/ q - n = -1 \/ q - n = 0 \/ 1 <= q - n)
    by lia.
  destruct Hcases as [Hlow | [Hm1 | [H0 | Hhigh]]].
  - exfalso.
    assert (den * (q - n) <= den * -2)
      by (apply Z.mul_le_mono_nonneg_l; lia).
    lia.
  - rewrite Hm1 in Hnear.
    destruct (Z.compare_spec (2 * r) den) as [Heq|Hlt|Hgt]; lia.
  - rewrite H0 in Hnear.
    destruct (Z.compare_spec (2 * r) den) as [Heq|Hlt|Hgt]; lia.
  - exfalso.
    assert (den * 1 <= den * (q - n))
      by (apply Z.mul_le_mono_nonneg_l; lia).
    lia.
Qed.

Lemma millivolts_round_trip_exact (mv : Z) :
  0 < mv -> millivolts_round_trip mv = true ->
  scaled (VInt mv) 1000 3 = Return (VFloat (decimal mv 3)).
Proof.
  intros Hpos. unfold millivolts_round_trip, scaled, py_truediv.
  cbn [as_num]. unfold F64.int_truediv.
  change (1000 =? 0) with false. cbv iota.
  destruct (F64.div (F64.exact_of_Z mv) (F64.exact_of_Z 1000))
    as [s|s| |s m e]; try discriminate.
  destruct s; [discriminate|].
  intros [He Hnear]%andb_true_iff.
  apply Z.ltb_lt in He. apply Z.ltb_lt in Hnear.
  rewrite Z.shiftl_1_l in Hnear.
  cbn [obind]. unfold py_round. cbn [as_num]. unfold F64.round.
  replace (0 <=? e) with false by (symmetry; apply Z.leb_gt; exact He).
  change (10 ^ Z.of_nat 3) with 1000.
  rewrite (div_half_even_near (Z.pos m * 1000) (2 ^ (- e)) mv);
    [|apply Z.pow_pos_nonneg; lia | exact Hnear].
  destruct mv as [|p|p]; try lia.
  reflexivity.
Qed.

Lemma millivolts_round_trip_16bit :
  forallb millivolts_round_trip (py_range 1 65536) = true.
Proof. vm_compute. reflexivity. Qed.

(** X4. For every cell voltage that fits a 16-bit register, the cell voltage
    sensor shows exactly the float nearest to [mv / 1000]: rounding to three
    decimal places loses nothing of a value in millivolts. *)
Theorem cell_voltage_is_exact (S : Snapshot) (s : JBDCellVoltageSensor.t) (mv : Z) :
  cell_info S !! JBDCellVoltageSensor.key s = Some (VInt mv) ->
  0 <= mv < 65536 ->
  JBDCellVoltageSensor.native_value s S = Return (VFloat (decimal mv 3)).
Proof.
  intros Hmv Hrange.
  assert (Hscaled : scaled (VInt mv) 1000 3 = Return (VFloat (decimal mv 3))).
  { destruct (Z.eq_dec mv 0) as [->|Hne]; [reflexivity|].
    apply millivolts_round_trip_exact; [lia|].
    apply (forallb_py_range _ _ _ millivolts_round_trip_16bit). lia. }
  unfold JBDCellVoltageSensor.native_value, getitem. rewrite Hmv. cbn [obind].
  exact Hscaled.
Qed.

Lemma cell_voltage_is_exact_at_3456 :
  JBDCellVoltageSensor.native_value (JBDCellVoltageSensor.init 0) Sim.snapshot0
  = Return (VFloat (decimal 3456 3)).
Proof.
  apply (cell_voltage_is_exact Sim.snapshot0 (JBDCellVoltageSensor.init 0) 3456);
    [reflexivity | lia].
Defined.

(** ** What the platforms register *)

Lemma starts_with_app (p s : string) : starts_with p (p +:+ s) = true.
Proof.
  induction p as [|a p IH]; simpl; [reflexivity|].
  now rewrite Ascii.eqb_refl.
Qed.

Lemma pretty_digit_no_underscore (d : N) (s : string) :
  no_underscore s = true -> no_underscore (String (pretty_N_char d) s) = true.
Proof.
  intros Hs. cbn [no_underscore]. rewrite Hs.
  unfold pretty_N_char. now repeat case_match.
Qed.

Lemma pretty_N_go_no_underscore (x : N) (s : string) :
  no_underscore s = true -> no_underscore (pretty_N_go x s) = true.
Proof.
  revert s. induction (N.lt_wf_0 x) as [x _ IH]; intros s Hs.
  destruct (N.eq_dec x 0%N) as [->|Hx].
  - now rewrite pretty_N_go_0.
  - rewrite pretty_N_go_step by lia.
    apply IH; [apply N.div_lt; lia|]. now apply pretty_digit_no_underscore.
Qed.

Lemma pretty_N_no_underscore (x : N) : no_underscore (pretty x) = true.
Proof.
  unfold pretty, pretty_N. case_decide; [reflexivity|].
  now apply pretty_N_go_no_underscore.
Qed.

Lemma pretty_nat_no_underscore (i : nat) : no_underscore (pretty i) = true.
Proof. apply pretty_N_no_underscore. Qed.

Lemma pretty_Z_no_underscore (z : Z) : no_underscore (pretty z) = true.
Proof.
  destruct z as [|p|p]; [reflexivity| |].
  - apply (pretty_N_no_underscore (Npos p)).
  - change (pretty (Zneg p)) with ("-" +:+ pretty (Npos p)).
    cbn. apply pretty_N_no_underscore.
Qed.

(** Two strings cut at their first underscore. *)
Lemma underscore_split (a b x y : string) :
  no_underscore a = true -> no_underscore b = true ->
  a +:+ "_" +:+ x = b +:+ "_" +:+ y -> a = b /\ x = y.
Proof.
  revert b. induction a as [|c a IH]; intros [|c' b] Ha Hb Heq;
    simpl in Heq; inversion Heq; subst.
  - auto.
  - simpl in Hb. discriminate Hb.
  - simpl in Ha. discriminate Ha.
  - cbn [no_underscore] in Ha, Hb.
    apply andb_true_iff in Ha as [_ Ha]. apply andb_true_iff in Hb as [_ Hb].
    destruct (IH b Ha Hb) as [-> ->]; auto.
Qed.

Lemma family_of_temperature (i : nat) :
  key_family (JBDBasicInfoSensor.TEMPERATURE i) = 1%nat.
Proof.
  unfold key_family, JBDBasicInfoSensor.TEMPERATURE.
  now rewrite starts_with_app.
Qed.

Lemma family_of_cell_voltage (i : nat) :
  key_family (JBDCellVoltageSensor.CELL_VOLTAGE i) = 2%nat.
Proof.
  unfold key_family, JBDCellVoltageSensor.CELL_VOLTAGE.
  replace (starts_with "ntc" _) with false by reflexivity.
  now rewrite starts_with_app.
Qed.

Lemma family_of_cell_balancing (i : nat) :
  key_family (JBDBasicInfoBinarySensor.CELL_BALANCING i) = 3%nat.
Proof.
  unfold key_family, JBDBasicInfoBinarySensor.CELL_BALANCING.
  replace (starts_with "ntc" _) with false by reflexivity.
  replace (starts_with "cell" _) with false by reflexivity.
  now rewrite starts_with_app.
Qed.

Lemma family_of_constant_keys (k : string) :
  k ∈ fixed_sensor_keys ++ switch_keys -> key_family k = 0%nat.
Proof.
  intros Hk. apply list_elem_of_In in Hk. cbn in Hk.
  repeat (destruct Hk as [<- | Hk]; [reflexivity|]). destruct Hk.
Qed.

Lemma temperature_key_inj : Inj (=) (=) JBDBasicInfoSensor.TEMPERATURE.
Proof.
  intros i j Hij. unfold JBDBasicInfoSensor.TEMPERATURE in Hij.
  now apply (inj (String.app "ntc")), (inj pretty) in Hij.
Qed.

Lemma cell_balancing_key_inj : Inj (=) (=) JBDBasicInfoBinarySensor.CELL_BALANCING.
Proof.
  intros i j Hij. unfold JBDBasicInfoBinarySensor.CELL_BALANCING in Hij.
  now apply (inj (String.app "bal")), (inj pretty) in Hij.
Qed.

Lemma cell_voltage_key_inj : Inj (=) (=) JBDCellVoltageSensor.CELL_VOLTAGE.
Proof.
  intros i j Hij. unfold JBDCellVoltageSensor.CELL_VOLTAGE in Hij.
  apply (inj (String.app "cell")) in Hij.
  apply (underscore_split (pretty i) (pretty j) "mv" "mv") in Hij
    as [Hij _]; auto using pretty_nat_no_underscore.
  now apply (inj pretty) in Hij.
Qed.

(** The keys registered for a snapshot with the counts [ntc] and [cells]. *)
Lemma registered_keys_eq (S : Snapshot) (ntc cells : Z) :
  basic_info S !! "ntc_cnt" = Some (VInt ntc) ->
  basic_info S !! "cell_cnt" = Some (VInt cells) ->
  registered_keys S
  = Return ((fixed_sensor_keys
             ++ (JBDBasicInfoSensor.TEMPERATURE <$> seq 0 (Z.to_nat ntc))
             ++ (JBDCellVoltageSensor.CELL_VOLTAGE <$> seq 0 (Z.to_nat cells)))
            ++ (JBDBasicInfoBinarySensor.CELL_BALANCING <$> seq 0 (Z.to_nat cells))
            ++ switch_keys).
Proof.
  intros Hn Hc.
  unfold registered_keys, sensor_async_setup_entry,
    binary_sensor_async_setup_entry, getitem,
    JBDBasicInfoSensor.TEMP_SENSOR_COUNT, JBDBasicInfoSensor.CELL_COUNT.
  rewrite Hn, Hc. cbn [obind py_range0 as_num].
  rewrite !map_app, !map_map. reflexivity.
Qed.

Lemma registered_keys_distinct (ntc cells : nat) :
  NoDup ((fixed_sensor_keys
          ++ (JBDBasicInfoSensor.TEMPERATURE <$> seq 0 ntc)
          ++ (JBDCellVoltageSensor.CELL_VOLTAGE <$> seq 0 cells))
         ++ (JBDBasicInfoBinarySensor.CELL_BALANCING <$> seq 0 cells)
         ++ switch_keys).
Proof.
  assert (Hfix : forall k, k ∈ fixed_sensor_keys -> key_family k = 0%nat).
  { intros k Hk. apply family_of_constant_keys, elem_of_app. now left. }
  assert (Hsw : forall k, k ∈ switch_keys -> key_family k = 0%nat).
  { intros k Hk. apply family_of_constant_keys, elem_of_app. now right. }
  assert (Htemp : forall k, k ∈ JBDBasicInfoSensor.TEMPERATURE <$> seq 0 ntc ->
                            key_family k = 1%nat).
  { intros k (i & -> & _)%list_elem_of_fmap. apply family_of_temperature. }
  assert (Hcell : forall k,
             k ∈ JBDCellVoltageSensor.CELL_VOLTAGE <$> seq 0 cells ->
             key_family k = 2%nat).
  { intros k (i & -> & _)%list_elem_of_fmap. apply family_of_cell_voltage. }
  assert (Hbal : forall k,
             k ∈ JBDBasicInfoBinarySensor.CELL_BALANCING <$> seq 0 cells ->
             key_family k = 3%nat).
  { intros k (i & -> & _)%list_elem_of_fmap. apply family_of_cell_balancing. }
  rewrite <- !app_assoc.
  repeat (apply NoDup_app; split; [|split]).
  - apply NoDup_ListNoDup. repeat constructor; cbn; intuition discriminate.
  - intros k Hk. rewrite !elem_of_app. intros [H|[H|[H|H]]].
    + apply Htemp in H. apply Hfix in Hk. congruence.
    + apply Hcell in H. apply Hfix in Hk. congruence.
    + apply Hbal in H. apply Hfix in Hk. congruence.
    + apply list_elem_of_In in Hk, H. cbn in Hk, H.
      intuition (subst; discriminate).
  - apply (@NoDup_fmap_2 _ _ _ temperature_key_inj), NoDup_seq.
  - intros k Hk. rewrite !elem_of_app. intros [H|[H|H]].
    + apply Hcell in H. apply Htemp in Hk. congruence.
    + apply Hbal in H. apply Htemp in Hk. congruence.
    + apply Hsw in H. apply Htemp in Hk. congruence.
  - apply (@NoDup_fmap_2 _ _ _ cell_voltage_key_inj), NoDup_seq.
  - intros k Hk. rewrite !elem_of_app. intros [H|H].
    + apply Hbal in H. apply Hcell in Hk. congruence.
    + apply Hsw in H. apply Hcell in Hk. congruence.
  - apply (@NoDup_fmap_2 _ _ _ cell_balancing_key_inj), NoDup_seq.
  - intros k Hk H. apply Hsw in H. apply Hbal in Hk. congruence.
  - apply NoDup_ListNoDup. repeat constructor; cbn; intuition discriminate.
Qed.

(** X5. The unique id determines the serial number and the key: two entities
    share an id only if they belong to the same device and have the same
    key. *)
Theorem unique_id_injective (d1 d2 : DeviceInfo) (k1 k2 : string) :
  BMSEntity.unique_id d1 k1 = BMSEntity.unique_id d2 k2 ->
  serial_number d1 = serial_number d2 /\ k1 = k2.
Proof.
  unfold BMSEntity.unique_id. intros [= Hid].
  apply underscore_split in Hid as [Hserial Hkey];
    auto using pretty_Z_no_underscore.
  split; [exact (pretty_Z_inj _ _ Hserial) | exact Hkey].
Qed.

Lemma unique_id_injective_on_sim :
  serial_number (set_serial_number 7 Sim.info0) = serial_number (set_serial_number 7 Sim.info0)
  /\ "pack_mv" = "pack_mv".
Proof.
  apply (unique_id_injective (set_serial_number 7 Sim.info0)
           (set_serial_number 7 Sim.info0) "pack_mv" "pack_mv").
  reflexivity.
Defined.

Lemma unique_id_key_inj (d : DeviceInfo) : Inj (=) (=) (BMSEntity.unique_id d).
Proof.
  intros k1 k2. unfold BMSEntity.unique_id. intros [= Hid].
  apply underscore_split in Hid as [_ Hkey];
    auto using pretty_Z_no_underscore.
Qed.

(** X6. For a snapshot with integer counts the three platforms register
    7 sensors, one temperature sensor per NTC, one voltage and one balancing
    sensor per cell and the two toggles (a count below 1 registers none);
    their keys are pairwise distinct, and so are their unique ids. *)
Theorem registered_entities_are_distinct (S : Snapshot) (ntc cells : Z)
    (d : DeviceInfo) :
  basic_info S !! "ntc_cnt" = Some (VInt ntc) ->
  basic_info S !! "cell_cnt" = Some (VInt cells) ->
  exists keys,
    registered_keys S = Return keys /\
    length keys = (9 + Z.to_nat ntc + 2 * Z.to_nat cells)%nat /\
    NoDup keys /\
    NoDup (BMSEntity.unique_id d <$> keys).
Proof.
  intros Hn Hc. eexists. split; [exact (registered_keys_eq S ntc cells Hn Hc)|].
  split; [|split].
  - rewrite !length_app, !length_fmap, !length_seq. cbn. lia.
  - apply registered_keys_distinct.
  - apply (@NoDup_fmap_2 _ _ _ (unique_id_key_inj d)), registered_keys_distinct.
Qed.

Lemma registered_entities_are_distinct_on_counts :
  exists keys,
    registered_keys (counts_snapshot 2 3) = Return keys /\
    length keys = (9 + Z.to_nat 2 + 2 * Z.to_nat 3)%nat /\
    NoDup keys /\
    NoDup (BMSEntity.unique_id Sim.info0 <$> keys).
Proof.
  apply (registered_entities_are_distinct (counts_snapshot 2 3) 2 3 Sim.info0);
    reflexivity.
Defined.

(** X7. A snapshot without a count, or with a count that is a float, makes the
    sensor platform raise instead of registering a partial list. *)
Theorem sensor_setup_needs_counts (S : Snapshot) :
  (basic_info S !! "ntc_cnt" = None ->
   sensor_async_setup_entry S = Raise (KeyError "ntc_cnt")) /\
  (forall f, basic_info S !! "ntc_cnt" = Some (VFloat f) ->
   sensor_async_setup_entry S = Raise TypeError) /\
  (forall n, basic_info S !! "ntc_cnt" = Some (VInt n) ->
   basic_info S !! "cell_cnt" = None ->
   sensor_async_setup_entry S = Raise (KeyError "cell_cnt")) /\
  (basic_info S !! "cell_cnt" = None ->
   binary_sensor_async_setup_entry S = Raise (KeyError "cell_cnt")).
Proof.
  unfold sensor_async_setup_entry, binary_sensor_async_setup_entry, getitem,
    JBDBasicInfoSensor.TEMP_SENSOR_COUNT, JBDBasicInfoSensor.CELL_COUNT.
  repeat split.
  - now intros ->.
  - now intros f ->.
  - now intros n -> ->.
  - now intros ->.
Qed.

Lemma sensor_setup_needs_counts_on_empty :
  sensor_async_setup_entry {| basic_info := ∅; cell_info := ∅ |}
  = Raise (KeyError "ntc_cnt").
Proof.
  apply (proj1 (sensor_setup_needs_counts {| basic_info := ∅; cell_info := ∅ |})).
  reflexivity.
Defined.

(* ===================================================================== *)
(** * Further properties of the poll cycle                                *)
(* ===================================================================== *)

Section PollCycleExtras.
Context {D : Type} `{JBD D}.

Lemma async_update_data_state (w : World D) :
  snd (async_update_data w) = snd (sync_update_data w).
Proof.
  unfold async_update_data, try_except_BMSError, raise.
  destruct (sync_update_data w) as [[s|e] w1]; [reflexivity|].
  now destruct e.
Qed.

(** X8. A poll cycle never writes to the device, and it leaves the coordinator,
    the configured entries and the flow data alone (publishing is the
    host's part). *)
Theorem poll_cycle_never_writes (w : World D) :
  let w' := snd (async_update_data w) in
  (exists t, calls w' = calls w ++ t /\
             Forall (fun c => is_write c = false) t) /\
  coordinator w' = coordinator w /\
  entries w' = entries w /\
  init_info w' = init_info w.
Proof.
  cbv zeta. rewrite async_update_data_state.
  destruct (sync_update_data_run w) as ((t & Ht & Hc) & _ & Hrest).
  split; [|exact Hrest].
  exists t. split; [exact Ht|]. now apply cycle_trace_no_write.
Qed.

(** X9. When the link cannot be opened, no read is attempted and the link is
    closed all the same; with a [close] that returns, the cycle raises the
    exception of [open]. Only the client's communication error becomes
    [UpdateFailed]: any other exception leaves the update method as it is. *)
Theorem open_failure_skips_reads (w : World D) (e : exn) (d1 : D) :
  jbd_open (device w) = (Raise e, d1) ->
  fst (jbd_close d1) = Return tt ->
  calls (snd (async_update_data w)) = calls w ++ [Copen; Cclose] /\
  fst (sync_update_data w) = Raise e /\
  fst (async_update_data w)
  = Raise (match e with
           | BMSError => UpdateFailed "BMS communication error"
           | _ => e
           end).
Proof.
  intros Hopen Hclose.
  assert (Hrun : sync_update_data w
                 = (Raise e, after_call (after_call w Copen d1) Cclose
                               (snd (jbd_close d1)))).
  { unfold sync_update_data, bind, try_finally, client_open, client_close,
      client_call.
    rewrite Hopen. cbn [device calls].
    destruct (jbd_close d1) as [r d2]. cbn [fst snd] in *. now subst r. }
  rewrite async_update_data_state.
  unfold async_update_data, try_except_BMSError, raise. rewrite Hrun.
  cbn [fst snd after_call calls]. rewrite <- app_assoc.
  split; [reflexivity|]. split; [reflexivity|]. now destruct e.
Qed.

End PollCycleExtras.

Lemma open_failure_skips_reads_on_sim :
  calls (snd (async_update_data unplugged_world)) = [Copen; Cclose] /\
  fst (sync_update_data unplugged_world) = Raise (SerialException 19) /\
  fst (async_update_data unplugged_world) = Raise (SerialException 19).
Proof.
  apply (open_failure_skips_reads unplugged_world (SerialException 19)
           Sim.device0); reflexivity.
Defined.

(* ===================================================================== *)
(** * Further properties of the toggles                                   *)
(* ===================================================================== *)

Section ToggleExtras.
Context {D : Type} `{JBD D}.

Lemma toggle_set_unfold (t : toggle) (desired : bool) :
  toggle_set t desired
  = bind coordinator_basic_info (fun info =>
    bind (lift (getitem info (sibling_key t))) (fun sibling =>
    bind (client_call (combined_write t desired sibling)
            (combined_write_op t desired sibling)) (fun _ =>
    bind (settle_loop (if desired then fun flag => negb (py_truthy flag)
                       else py_truthy)
            (match t with
             | Charge => JBDBasicInfoSensor.CHARGING_ENABLED
             | Discharge => JBDBasicInfoSensor.DISCHARGING_ENABLED
             end) 5) (fun _ =>
    coordinator_async_refresh)))).
Proof. now destruct t, desired. Qed.

(** X10. Without the sibling flag in the snapshot, or without a snapshot, a
    toggle raises before anything is sent: the state is left as it was. *)
Theorem toggle_without_sibling_sends_nothing (t : toggle) (desired : bool)
    (w : World D) :
  match coordinator_data (coordinator w) with
  | None => toggle_set t desired w = (Raise TypeError, w)
  | Some snapshot =>
      basic_info snapshot !! sibling_key t = None ->
      toggle_set t desired w = (Raise (KeyError (sibling_key t)), w)
  end.
Proof.
  destruct (coordinator_data (coordinator w)) as [snapshot|] eqn:Hdata.
  - intros Hnone.
    rewrite toggle_set_unfold, bind_run. unfold coordinator_basic_info at 1.
    rewrite Hdata, bind_run. unfold lift at 1, getitem. now rewrite Hnone.
  - rewrite toggle_set_unfold, bind_run. unfold coordinator_basic_info at 1.
    now rewrite Hdata.
Qed.

(** X11. When the combined write raises, the toggle raises the same exception
    after that single call: nothing is read back and the snapshot is not
    refreshed. *)
Theorem toggle_write_failure_stops (t : toggle) (desired : bool)
    (w : World D) (snapshot : Snapshot) (sibling : pyval) (e : exn) (d1 : D) :
  coordinator_data (coordinator w) = Some snapshot ->
  basic_info snapshot !! sibling_key t = Some sibling ->
  combined_write_op t desired sibling (device w) = (Raise e, d1) ->
  toggle_set t desired w
  = (Raise e, after_call w (combined_write t desired sibling) d1).
Proof.
  intros Hsnap Hsib Hwrite.
  rewrite toggle_set_unfold, bind_run. unfold coordinator_basic_info at 1.
  rewrite Hsnap, bind_run. unfold lift at 1, getitem. rewrite Hsib, bind_run.
  unfold client_call at 1. now rewrite Hwrite.
Qed.





End ToggleExtras.

Lemma toggle_write_failure_stops_on_sim :
  toggle_set Charge true failing_write_world
  = (Raise BMSError,
     after_call failing_write_world (CchgDsgEnable (VBool true) (VBool true))
       Sim.device0).
Proof.
  apply (toggle_write_failure_stops Charge true failing_write_world
           Sim.snapshot0 (VBool true) BMSError Sim.device0); reflexivity.
Defined.

Lemma toggle_without_sibling_sends_nothing_on_sim :
  let w := Sim.world Sim.device0 [] in
  let bare := {| device := device w; calls := calls w;
                 coordinator := {| coordinator_data := Some charging_snapshot;
                                   last_update_success := true |};
                 entries := entries w; init_info := init_info w |} in
  toggle_set Charge true bare = (Raise (KeyError "dsg_fet_en"), bare).
Proof.
  cbv zeta.
  match goal with |- toggle_set _ _ ?w = _ =>
    apply (toggle_without_sibling_sends_nothing Charge true w) end.
  reflexivity.
Defined.


(* ===================================================================== *)
(** * Further properties of the config flow                               *)
(* ===================================================================== *)

Section FlowExtras.
Context {D : Type} `{JBD D}.
Variable config_entry_getitem : ConfigEntry -> string -> outcome Z.

(** What one run of the step does to the state and what it can hand back:
    it leaves the entries and the coordinator alone; it makes no client call
    or a single write of the serial-number register with a number of
    [1, 65535]; only after such a write does [init_info] change, and then
    to that number; an entry is created only from the final [init_info],
    with a serial number that is not 0 and that no configured entry holds. *)
Lemma step_effect (input : option (gmap string pyval)) (w : World D) :
  let r := BMSToolsConfigFlow.async_step_serial_number config_entry_getitem
             input w in
  entries (snd r) = entries w /\
  coordinator (snd r) = coordinator w /\
  (snd r = w \/
   exists n, 1 <= n <= 65535 /\
     input <> None /\
     calls (snd r) = calls w ++ [CwriteReg JBD_REG_SERIAL_NUM n] /\
     (init_info (snd r) = init_info w \/
      init_info (snd r) = set_serial_number n (init_info w))) /\
  (forall title d, fst r = Return (FlowCreateEntry title d) ->
     title = DEFAULT_INTEGRATION_TITLE /\
     d = init_info (snd r) /\
     serial_number d <> 0 /\
     forall e, In e (entries w) -> serial_number (data e) <> serial_number d).
Proof.
  cbv zeta.
  unfold BMSToolsConfigFlow.async_step_serial_number. rewrite bind_run.
  match goal with |- context [match ?m w with _ => _ end] =>
    assert (Hpart :
      entries (snd (m w)) = entries w /\
      coordinator (snd (m w)) = coordinator w /\
      (snd (m w) = w \/
       exists n, 1 <= n <= 65535 /\
         input <> None /\
         calls (snd (m w)) = calls w ++ [CwriteReg JBD_REG_SERIAL_NUM n] /\
         (init_info (snd (m w)) = init_info w \/
          init_info (snd (m w)) = set_serial_number n (init_info w))));
    [|destruct (m w) as [[errors|e] w1]]
  end.
  { match goal with |- context [snd ?mw] =>
      remember mw as res eqn:Hres; revert Hres end.
    destruct input as [input|]; [|intros ->; cbn; auto].
    rewrite bind_run. unfold lift at 1.
    destruct (getitem input "consent") as [consent|e]; [|intros ->; cbn; auto].
    destruct (py_truthy consent); [|intros ->; cbn; auto].
    rewrite bind_run.
    pose proof (get_next_pure config_entry_getitem w) as Hpure.
    pose proof (get_next_in_range config_entry_getitem w) as Hrange.
    destruct (BMSToolsConfigFlow.get_next_available_serial_number
                config_entry_getitem w) as [[found|e] w0];
      cbn [fst snd] in Hpure, Hrange; subst w0; [|intros ->; cbn; auto].
    destruct found as [n|]; [|intros ->; cbn; auto].
    specialize (Hrange n eq_refl).
    assert (Hnz : (n =? 0) = false) by (apply Z.eqb_neq; lia).
    cbn [truthy_opt default from_option id]. rewrite Hnz. cbn [negb].
    rewrite bind_run.
    unfold BMSToolsConfigFlow.write_serial_number, try_except_BMSError,
      client_writeReg, client_call, ret, set_init_info, bind.
    destruct (jbd_writeReg JBD_REG_SERIAL_NUM n (device w)) as [[[]|e] d1];
      [|destruct e]; intros ->;
      cbn [fst snd entries coordinator calls init_info];
      (split; [reflexivity|]); (split; [reflexivity|]); right; exists n;
      (split; [lia|]); (split; [discriminate|]); (split; [reflexivity|]); auto. }
  - cbn [fst snd] in Hpart. destruct Hpart as (Hent & Hco & Hcalls).
    destruct (serial_number (init_info w1) =? 0) eqn:Hzero;
      [|destruct (existsb _ (entries w1)) eqn:Hdup];
      cbn [fst snd]; (split; [exact Hent|]); (split; [exact Hco|]);
      (split; [exact Hcalls|]); try discriminate.
    intros title d [= <- <-]. split; [reflexivity|]. split; [reflexivity|].
    split; [now apply Z.eqb_neq|].
    intros e He Heq. apply not_true_iff_false in Hdup. apply Hdup.
    apply existsb_exists. exists e. rewrite Hent.
    split; [exact He | now apply Z.eqb_eq].
  - cbn [fst snd] in *. destruct Hpart as (Hent & Hco & Hcalls).
    repeat split; auto; discriminate.
Qed.

(** X13. The step never creates an entry whose serial number is 0 or is held by
    an already configured entry, however the subscript of an entry behaves
    and whatever the device does. *)
Theorem created_entry_is_never_a_duplicate (input : option (gmap string pyval))
    (w : World D) :
  match fst (BMSToolsConfigFlow.async_step_serial_number config_entry_getitem
               input w) with
  | Return (FlowCreateEntry title d) =>
      title = DEFAULT_INTEGRATION_TITLE /\
      serial_number d <> 0 /\
      forall e, In e (entries w) -> serial_number (data e) <> serial_number d
  | _ => True
  end.
Proof.
  destruct (step_effect input w) as (_ & _ & _ & Hcreate).
  destruct (fst _) as [[reason|step_id errors|title d]|e]; try exact I.
  destruct (Hcreate title d eq_refl) as (Ht & _ & Hnz & Hfresh). auto.
Qed.

(** X14. The step writes to the device at most once, and then the serial-number
    register with a number of [1, 65535]; without user input it makes no
    client call at all. It never changes the configured entries or the
    coordinator. *)
Theorem step_writes_at_most_once (input : option (gmap string pyval))
    (w : World D) :
  let w' := snd (BMSToolsConfigFlow.async_step_serial_number
                   config_entry_getitem input w) in
  entries w' = entries w /\
  coordinator w' = coordinator w /\
  (w' = w \/
   exists n, 1 <= n <= 65535 /\ input <> None /\
     calls w' = calls w ++ [CwriteReg JBD_REG_SERIAL_NUM n]).
Proof.
  destruct (step_effect input w) as (Hent & Hco & Hcalls & _).
  cbv zeta. split; [exact Hent|]. split; [exact Hco|].
  destruct Hcalls as [Hsame | (n & Hn & Hin & Hcalls & _)]; [now left|].
  right. now exists n.
Qed.

(** The first pass through the step (no user input) asks for consent when
    the device reports 0, aborts when its serial number is already
    configured and otherwise creates the entry with the device's own
    number; it leaves the state untouched. *)
Theorem first_pass_of_serial_number_step (w : World D) :
  BMSToolsConfigFlow.async_step_serial_number config_entry_getitem None w
  = (Return
       (if serial_number (init_info w) =? 0
        then FlowForm "serial_number" ∅
        else if existsb (fun e => serial_number (data e)
                                  =? serial_number (init_info w)) (entries w)
             then FlowAbort "device_already_configured"
             else FlowCreateEntry DEFAULT_INTEGRATION_TITLE (init_info w)),
     w).
Proof.
  unfold BMSToolsConfigFlow.async_step_serial_number.
  rewrite bind_run. unfold ret at 1.
  destruct (serial_number (init_info w) =? 0); [reflexivity|].
  now destruct (existsb _ _).
Qed.

End FlowExtras.

Section SearchExtras.
Context {D : Type} `{JBD D}.
Variable config_entry_getitem : ConfigEntry -> string -> outcome Z.

Lemma find_range_from_first (f : Z -> bool) (lo : Z) (len : nat) (n : Z) :
  lo <= n < lo + Z.of_nat len -> f n = true ->
  (forall m, lo <= m < n -> f m = false) ->
  find f (range_from lo len) = Some n.
Proof.
  revert lo. induction len as [|len IH]; intros lo Hn Hf Hmin;
    cbn [range_from find].
  - lia.
  - destruct (Z.eq_dec lo n) as [->|Hne].
    + now rewrite Hf.
    + rewrite Hmin by lia. apply IH; [lia | exact Hf |].
      intros m Hm. apply Hmin. lia.
Qed.

(** The first loop of the search, when the subscript yields a value for
    every entry. *)
Lemma taken_serial_nums_values (existing : list ConfigEntry) (taken : list Z) :
  Forall2 (fun e v => config_entry_getitem e ATTR_SERIAL_NUMBER = Return v)
    existing taken ->
  BMSToolsConfigFlow.taken_serial_nums config_entry_getitem existing
  = Return taken.
Proof.
  induction 1 as [|e v es vs Hv _ IH];
    cbn [BMSToolsConfigFlow.taken_serial_nums]; [reflexivity|].
  rewrite Hv. cbn [obind]. now rewrite IH.
Qed.

(** X15. The search of a free serial number, for every behaviour of the
    subscript of a configured entry. With no entry configured it yields 1.
    When the subscript raises on the first entry, as it does on the host,
    whose entries have no subscript, the search raises that exception,
    whatever the other entries are: on the host the search works for the
    first device only. On a host where the subscript yields a value for
    every entry, the search returns [n] exactly when [n] is the lowest
    number of [1, 65535] that is not among these values. *)
Theorem search_follows_the_subscript (w : World D) :
  (entries w = [] ->
   fst (BMSToolsConfigFlow.get_next_available_serial_number
          config_entry_getitem w) = Return (Some 1)) /\
  (forall e es err,
     entries w = e :: es ->
     config_entry_getitem e ATTR_SERIAL_NUMBER = Raise err ->
     fst (BMSToolsConfigFlow.get_next_available_serial_number
            config_entry_getitem w) = Raise err) /\
  (forall taken,
     Forall2 (fun e v => config_entry_getitem e ATTR_SERIAL_NUMBER = Return v)
       (entries w) taken ->
     forall n,
       fst (BMSToolsConfigFlow.get_next_available_serial_number
              config_entry_getitem w) = Return (Some n)
       <->
       1 <= n <= 65535 /\ ~ In n taken /\
       (forall m, 1 <= m < n -> In m taken)).
Proof.
  unfold BMSToolsConfigFlow.get_next_available_serial_number. cbn [fst].
  split; [|split].
  - intros ->. cbn [BMSToolsConfigFlow.taken_serial_nums obind].
    apply f_equal. unfold py_range. apply find_range_from_first.
    + rewrite Z2Nat.id by lia. lia.
    + reflexivity.
    + intros m Hm. lia.
  - intros e es err -> Herr. cbn [BMSToolsConfigFlow.taken_serial_nums].
    now rewrite Herr.
  - intros taken Hvalues n.
    rewrite (taken_serial_nums_values _ _ Hvalues). cbn [obind].
    unfold py_range. split.
    + remember (find _ _) as r eqn:Hfind.
      intros [= ->]. symmetry in Hfind.
      apply find_range_from_some in Hfind as (Hn & Hfree & Hmin).
      rewrite Z2Nat.id in Hn by lia.
      split; [lia|]. split.
      * intros Hin. apply negb_true_iff, not_true_iff_false in Hfree.
        now apply Hfree, py_in_true.
      * intros m Hm. specialize (Hmin m Hm).
        now apply negb_false_iff, py_in_true in Hmin.
    + intros (Hn & Hfree & Hmin). apply f_equal.
      apply find_range_from_first.
      * rewrite Z2Nat.id by lia. lia.
      * apply negb_true_iff, not_true_iff_false. intros Hin.
        now apply Hfree, py_in_true.
      * intros m Hm. now apply negb_false_iff, py_in_true, Hmin.
Qed.

End SearchExtras.

Lemma search_follows_the_subscript_on_host :
  fst (BMSToolsConfigFlow.get_next_available_serial_number
         subscript_unsupported (Sim.world Sim.device0 []))
  = Return (Some 1) /\
  fst (BMSToolsConfigFlow.get_next_available_serial_number
         subscript_unsupported (Sim.world Sim.device0 [entry_with_serial 1]))
  = Raise TypeError.
Proof.
  split.
  - apply (proj1 (search_follows_the_subscript subscript_unsupported
                    (Sim.world Sim.device0 []))).
    reflexivity.
  - apply (proj1 (proj2 (search_follows_the_subscript subscript_unsupported
                           (Sim.world Sim.device0 [entry_with_serial 1])))
             (entry_with_serial 1) [] TypeError); reflexivity.
Defined.

(* ===================================================================== *)
(** * Probing a device                                                    *)
(* ===================================================================== *)

Section ProbeProperties.
Context {D : Type} {client : JBD D} {registers : JBDRegisters D}.
Variable float_repr : spec_float -> string.
Variable new_client : pyobj -> outcome unit.

#[local] Set Warnings "-clear-no-such-hyp".

Lemma pbind_run {A B} (m : P D A) (k : A -> P D B) (p : Probe D) :
  pbind m k p = match m p with
                | (Return a, p') => k a p'
                | (Raise e, p') => (Raise e, p')
                end.
Proof. reflexivity. Qed.

(** One run of the body of an attempt: [open] and the reads reached, the
    scan cache untouched, only the four entries added to [device_info], and
    all four of them present when the body returns. *)
Lemma read_device_info_rejected (com_port : pyobj) (e : exn) (p : Probe D) :
  new_client com_port = Raise e ->
  read_device_info float_repr new_client com_port p = (Raise e, p).
Proof.
  intros Hhead. unfold read_device_info. rewrite pbind_run.
  unfold plift at 1. now rewrite Hhead.
Qed.

Lemma read_device_info_run (com_port : pyobj) (p : Probe D) :
  new_client com_port = Return tt ->
  let r := read_device_info float_repr new_client com_port p in
  (exists reads,
     probe_calls (snd r) = probe_calls p ++ Popen com_port :: reads /\
     (reads = [] \/ reads = [PreadReg JBD_REG_SERIAL_NUM]
      \/ reads = [PreadReg JBD_REG_SERIAL_NUM; PreadBasicInfo]
      \/ reads = [PreadReg JBD_REG_SERIAL_NUM; PreadBasicInfo;
                  PreadReg JBD_REG_DEVICE_NAME])) /\
  serial_ports (snd r) = serial_ports p /\
  com_ports_list (snd r) = com_ports_list p /\
  default_com_port (snd r) = default_com_port p /\
  dom (device_info (snd r)) ⊆ dom (device_info p) ∪ device_info_keys /\
  (fst r = Return tt -> device_info_keys ⊆ dom (device_info (snd r))).
Proof.
  intros Hhead. cbv zeta.
  remember (read_device_info float_repr new_client com_port p) as res eqn:Hres.
  revert Hres.
  unfold read_device_info, pbind, probe_step, set_device_info, plift,
    device_info_keys.
  rewrite Hhead.
  cbn [probe_device probe_calls serial_ports device_info com_ports_list
       default_com_port].
  destruct (jbd_open (probe_device p)) as [[[]|e] d1].
  2: { intros ->. cbn. rewrite <- ?app_assoc. split; [exists []; auto|].
       repeat split; auto; try discriminate; set_solver. }
  cbn [probe_device probe_calls serial_ports device_info com_ports_list
       default_com_port].
  destruct (jbd_readReg JBD_REG_SERIAL_NUM d1) as [[reg|e] d2].
  2: { intros ->. cbn. rewrite <- ?app_assoc.
       split; [exists [PreadReg JBD_REG_SERIAL_NUM]; auto|].
       repeat split; auto; try discriminate; set_solver. }
  cbn [probe_device probe_calls serial_ports device_info com_ports_list
       default_com_port].
  destruct (jbd_readBasicInfo d2) as [[basic|e] d3].
  2: { intros ->. cbn. rewrite <- ?app_assoc.
       split; [exists [PreadReg JBD_REG_SERIAL_NUM; PreadBasicInfo]; auto|].
       repeat split; auto; try discriminate; rewrite ?dom_insert_L; set_solver. }
  cbn [probe_device probe_calls serial_ports device_info com_ports_list
       default_com_port].
  destruct (getitem basic JBD_BASIC_FIRMWARE_VERSION) as [version|e].
  2: { intros ->. cbn. rewrite <- ?app_assoc.
       split; [exists [PreadReg JBD_REG_SERIAL_NUM; PreadBasicInfo]; auto|].
       repeat split; auto; try discriminate; rewrite ?dom_insert_L; set_solver. }
  cbn [probe_device probe_calls serial_ports device_info com_ports_list
       default_com_port].
  destruct (getitem basic "year") as [year|e].
  2: { intros ->. cbn. rewrite <- ?app_assoc.
       split; [exists [PreadReg JBD_REG_SERIAL_NUM; PreadBasicInfo]; auto|].
       repeat split; auto; try discriminate; rewrite ?dom_insert_L; set_solver. }
  cbn [probe_device probe_calls serial_ports device_info com_ports_list
       default_com_port].
  destruct (getitem basic "month") as [month|e].
  2: { intros ->. cbn. rewrite <- ?app_assoc.
       split; [exists [PreadReg JBD_REG_SERIAL_NUM; PreadBasicInfo]; auto|].
       repeat split; auto; try discriminate; rewrite ?dom_insert_L; set_solver. }
  cbn [probe_device probe_calls serial_ports device_info com_ports_list
       default_com_port].
  destruct (getitem basic "day") as [day|e].
  2: { intros ->. cbn. rewrite <- ?app_assoc.
       split; [exists [PreadReg JBD_REG_SERIAL_NUM; PreadBasicInfo]; auto|].
       repeat split; auto; try discriminate; rewrite ?dom_insert_L; set_solver. }
  cbn [probe_device probe_calls serial_ports device_info com_ports_list
       default_com_port].
  destruct (jbd_readReg JBD_REG_DEVICE_NAME d3) as [[reg'|e] d4].
  2: { intros ->. cbn. rewrite <- ?app_assoc.
       split; [exists [PreadReg JBD_REG_SERIAL_NUM; PreadBasicInfo;
                       PreadReg JBD_REG_DEVICE_NAME]; auto 10|].
       repeat split; auto; try discriminate; rewrite ?dom_insert_L; set_solver. }
  cbn [probe_device probe_calls serial_ports device_info com_ports_list
       default_com_port].
  intros ->. cbn. rewrite <- ?app_assoc.
  split; [exists [PreadReg JBD_REG_SERIAL_NUM; PreadBasicInfo;
                  PreadReg JBD_REG_DEVICE_NAME]; auto 10|].
  repeat split; auto; rewrite ?dom_insert_L; set_solver.
Qed.

(** A round of the loop for a port that the head accepts: [client] is
    bound, and the [finally] block closes it. *)
Lemma connect_attempts_S (com_port : pyobj) (bound : bool) (left' : nat)
    (p : Probe D) :
  new_client com_port = Return tt ->
  connect_attempts float_repr new_client com_port bound (S left') p
  = (let '(body, p1) := read_device_info float_repr new_client com_port p in
     let '(closing, p2) := probe_step Pclose jbd_close p1 in
     match closing with
     | Raise e => (Raise e, p2)
     | Return _ =>
         match body with
         | Return _ => (Return tt, p2)
         | Raise BMSError =>
             match left' with
             | O => (Raise BMSError, p2)
             | S _ =>
                 connect_attempts float_repr new_client com_port true left' p2
             end
         | Raise e => (Raise e, p2)
         end
     end).
Proof.
  intros Hhead. cbn [connect_attempts]. unfold binds_client, close_client.
  rewrite Hhead, orb_true_r. reflexivity.
Qed.

(** A port that the head rejects: the body raises before [client] is
    bound, and the [finally] block replaces its exception. *)
Lemma connect_attempts_rejected (com_port : pyobj) (e : exn) (left' : nat)
    (p : Probe D) :
  new_client com_port = Raise e ->
  connect_attempts float_repr new_client com_port false (S left') p
  = (Raise (UnboundLocalError "client"), p).
Proof.
  intros Hhead. cbn [connect_attempts].
  rewrite (read_device_info_rejected com_port e p Hhead).
  unfold binds_client, close_client. now rewrite Hhead.
Qed.

(** The loop of attempts: its calls are those of at least one and at most
    [left] attempts, each from [open] to [close]; the device is left by a
    [close]; the scan cache is untouched; [device_info] gains only the four
    entries, and holds all four when the loop returns. *)
Lemma connect_attempts_run (com_port : pyobj) (bound : bool) (left' : nat)
    (p : Probe D) :
  new_client com_port = Return tt ->
  let r := connect_attempts float_repr new_client com_port bound (S left') p in
  (exists ts,
     probe_calls (snd r) = probe_calls p ++ concat ts /\
     Forall (attempt_trace com_port) ts /\
     (1 <= length ts <= S left')%nat) /\
  (exists d, probe_device (snd r) = snd (jbd_close d)) /\
  serial_ports (snd r) = serial_ports p /\
  com_ports_list (snd r) = com_ports_list p /\
  default_com_port (snd r) = default_com_port p /\
  dom (device_info (snd r)) ⊆ dom (device_info p) ∪ device_info_keys /\
  (fst r = Return tt -> device_info_keys ⊆ dom (device_info (snd r))).
Proof.
  intros Hhead. revert bound p.
  induction left' as [|left' IH]; intros bound p; cbv zeta;
    rewrite (connect_attempts_S com_port bound _ p Hhead);
    destruct (read_device_info_run com_port p Hhead)
      as ((reads & Hcalls & Hreads) & Hsp & Hcl & Hdp & Hdom & Hfull);
    destruct (read_device_info float_repr new_client com_port p) as [body p1];
    cbn [fst snd] in Hcalls, Hsp, Hcl, Hdp, Hdom, Hfull;
    unfold probe_step;
    destruct (jbd_close (probe_device p1)) as [closing d2] eqn:Hclose;
    assert (Hd2 : exists d, d2 = snd (jbd_close d))
      by (exists (probe_device p1); now rewrite Hclose);
    assert (Hone : exists ts,
               probe_calls p1 ++ [Pclose] = probe_calls p ++ concat ts /\
               Forall (attempt_trace com_port) ts /\ length ts = 1%nat)
      by (exists [Popen com_port :: reads ++ [Pclose]]; cbn [concat];
          rewrite Hcalls, app_nil_r, <- app_assoc; split; [reflexivity|];
          split; [|reflexivity]; repeat constructor; exists reads; auto).
  - destruct Hone as (ts & Hts & Hall & Hlen).
    assert (Hgoal : forall o : outcome unit,
      (o = Return tt -> body = Return tt) ->
      let r := (o, {| probe_device := d2;
                      probe_calls := probe_calls p1 ++ [Pclose];
                      serial_ports := serial_ports p1;
                      device_info := device_info p1;
                      com_ports_list := com_ports_list p1;
                      default_com_port := default_com_port p1 |}) in
      (exists ts,
         probe_calls (snd r) = probe_calls p ++ concat ts /\
         Forall (attempt_trace com_port) ts /\
         (1 <= length ts <= 1)%nat) /\
      (exists d, probe_device (snd r) = snd (jbd_close d)) /\
      serial_ports (snd r) = serial_ports p /\
      com_ports_list (snd r) = com_ports_list p /\
      default_com_port (snd r) = default_com_port p /\
      dom (device_info (snd r)) ⊆ dom (device_info p) ∪ device_info_keys /\
      (fst r = Return tt -> device_info_keys ⊆ dom (device_info (snd r)))).
    { intros o Ho. cbn. split; [exists ts; repeat split; auto; lia|].
      repeat split; auto. }
    destruct closing as [[]|e]; [|apply Hgoal; discriminate].
    destruct body as [[]|e]; [apply Hgoal; auto|].
    destruct e; apply Hgoal; discriminate.
  - destruct Hone as (ts & Hts & Hall & Hlen).
    assert (Hgoal : forall o : outcome unit,
      (o = Return tt -> body = Return tt) ->
      let r := (o, {| probe_device := d2;
                      probe_calls := probe_calls p1 ++ [Pclose];
                      serial_ports := serial_ports p1;
                      device_info := device_info p1;
                      com_ports_list := com_ports_list p1;
                      default_com_port := default_com_port p1 |}) in
      (exists ts,
         probe_calls (snd r) = probe_calls p ++ concat ts /\
         Forall (attempt_trace com_port) ts /\
         (1 <= length ts <= S (S left'))%nat) /\
      (exists d, probe_device (snd r) = snd (jbd_close d)) /\
      serial_ports (snd r) = serial_ports p /\
      com_ports_list (snd r) = com_ports_list p /\
      default_com_port (snd r) = default_com_port p /\
      dom (device_info (snd r)) ⊆ dom (device_info p) ∪ device_info_keys /\
      (fst r = Return tt -> device_info_keys ⊆ dom (device_info (snd r)))).
    { intros o Ho. cbn. split; [exists ts; repeat split; auto; lia|].
      repeat split; auto. }
    destruct closing as [[]|e]; [|apply Hgoal; discriminate].
    destruct body as [[]|e]; [apply Hgoal; auto|].
    destruct e; try (apply Hgoal; discriminate).
    match goal with |- context [connect_attempts _ _ _ _ _ ?p2] =>
      destruct (IH true p2) as ((ts' & Hts' & Hall' & Hlen') & Hdev' & Hsp' & Hcl'
                           & Hdp' & Hdom' & Hfull') end.
    cbn [probe_calls serial_ports com_ports_list default_com_port device_info]
      in Hts', Hsp', Hcl', Hdp', Hdom'.
    split.
    { exists (ts ++ ts'). rewrite concat_app, app_assoc, <- Hts, Hts'.
      split; [reflexivity|]. split; [now apply Forall_app|].
      rewrite length_app. lia. }
    split; [exact Hdev'|].
    split; [congruence|]. split; [congruence|]. split; [congruence|].
    split; [clear - Hdom Hdom'; set_solver | exact Hfull'].
Qed.

Lemma connect_and_read_device_info_run (data : gmap string pyobj)
    (com_port : pyobj) (p : Probe D) :
  data !! CONF_PORT = Some com_port ->
  connect_and_read_device_info float_repr new_client data p
  = (match fst (connect_attempts float_repr new_client com_port false 2 (cleared p)) with
     | Return _ =>
         Return (device_info
                   (snd (connect_attempts float_repr new_client com_port false 2 (cleared p))))
     | Raise e => Raise e
     end, snd (connect_attempts float_repr new_client com_port false 2 (cleared p))).
Proof.
  intros Hport.
  unfold connect_and_read_device_info.
  rewrite pbind_run. unfold plift at 1, getitem. rewrite Hport.
  rewrite pbind_run. unfold clear_device_info at 1. rewrite pbind_run.
  unfold MAX_CONNECTION_ATTEMPTS. fold (cleared p).
  now destruct (connect_attempts float_repr new_client com_port false 2 (cleared p))
    as [[[]|e] p'].
Qed.

(** What a probe returns is its final [device_info], with exactly the four
    entries. *)
Lemma probe_attempts_are_bracketed_aux (data : gmap string pyobj)
    (com_port : pyobj) (p : Probe D) :
  data !! CONF_PORT = Some com_port ->
  forall info,
    fst (connect_and_read_device_info float_repr new_client data p) = Return info ->
    info = device_info (snd (connect_and_read_device_info float_repr new_client data p))
    /\ dom info = device_info_keys.
Proof.
  intros Hport. rewrite (connect_and_read_device_info_run data com_port p Hport).
  destruct (new_client com_port) as [[]|e0] eqn:Hhead.
  2: { rewrite (connect_attempts_rejected com_port e0 1 (cleared p) Hhead).
       discriminate. }
  destruct (connect_attempts_run com_port false 1 (cleared p) Hhead)
    as (_ & _ & _ & _ & _ & Hdom & Hfull).
  destruct (connect_attempts float_repr new_client com_port false 2 (cleared p))
    as [[[]|e] p']; cbn [fst snd cleared probe_calls device_info] in *;
    [|discriminate].
  intros info [= <-]. split; [reflexivity|].
  specialize (Hfull eq_refl). rewrite dom_empty_L in Hdom. set_solver.
Qed.

(** X17. For a port that the head of an attempt accepts (with the serial
    library: a string), every probe consists of one or two attempts on it,
    each bracketed by [open] and [close] with the reads in their fixed order;
    it leaves the device after a [close]; and what it returns is a complete
    device information: exactly the serial number, the software and hardware
    versions and the model, never a partly filled dict. *)
Theorem probe_attempts_are_bracketed (data : gmap string pyobj)
    (com_port : pyobj) (p : Probe D) :
  data !! CONF_PORT = Some com_port ->
  new_client com_port = Return tt ->
  let r := connect_and_read_device_info float_repr new_client data p in
  (exists ts,
     probe_calls (snd r) = probe_calls p ++ concat ts /\
     Forall (attempt_trace com_port) ts /\
     (1 <= length ts <= 2)%nat) /\
  (exists d, probe_device (snd r) = snd (jbd_close d)) /\
  (forall info, fst r = Return info ->
     info = device_info (snd r) /\ dom info = device_info_keys).
Proof.
  intros Hport Hhead. cbv zeta.
  split; [|split; [|exact (probe_attempts_are_bracketed_aux data com_port p
                             Hport)]];
    rewrite (connect_and_read_device_info_run data com_port p Hport);
    destruct (connect_attempts_run com_port false 1 (cleared p) Hhead)
      as (Hts & Hdev & _);
    cbn [fst snd cleared probe_calls] in *; assumption.
Qed.

(** X18. For a port that the head of an attempt accepts: an exception of the
    first attempt other than the communication error ends the probe: the
    link is closed and the exception raised, without a second attempt. *)
Theorem other_errors_are_not_retried (data : gmap string pyobj)
    (com_port : pyobj) (p p1 : Probe D) (e : exn) :
  data !! CONF_PORT = Some com_port ->
  new_client com_port = Return tt ->
  read_device_info float_repr new_client com_port (cleared p) = (Raise e, p1) ->
  e <> BMSError ->
  fst (jbd_close (probe_device p1)) = Return tt ->
  connect_and_read_device_info float_repr new_client data p = (Raise e, after_close p1).
Proof.
  intros Hport Hhead Hbody Hne Hclose.
  rewrite (connect_and_read_device_info_run data com_port p Hport).
  assert (Hrun : connect_attempts float_repr new_client com_port false 2
                   (cleared p)
                 = (Raise e, after_close p1)).
  { rewrite (connect_attempts_S com_port false 1 (cleared p) Hhead), Hbody.
    unfold probe_step, after_close.
    destruct (jbd_close (probe_device p1)) as [closing d2].
    cbn [fst snd] in *. subst closing. now destruct e. }
  now rewrite Hrun.
Qed.

(** X19. For a port that the head of an attempt accepts: after a
    communication error in the first attempt the second attempt decides: its
    device information is returned, or its exception raised (a second
    communication error included); there is no third attempt. *)
Theorem second_attempt_decides (data : gmap string pyobj)
    (com_port : pyobj) (p p1 p3 : Probe D) (body : outcome unit) :
  data !! CONF_PORT = Some com_port ->
  new_client com_port = Return tt ->
  read_device_info float_repr new_client com_port (cleared p) = (Raise BMSError, p1) ->
  fst (jbd_close (probe_device p1)) = Return tt ->
  read_device_info float_repr new_client com_port (after_close p1) = (body, p3) ->
  fst (jbd_close (probe_device p3)) = Return tt ->
  connect_and_read_device_info float_repr new_client data p
  = (match body with
     | Return _ => Return (device_info p3)
     | Raise e => Raise e
     end, after_close p3).
Proof.
  intros Hport Hhead Hfirst Hclose1 Hsecond Hclose2.
  rewrite (connect_and_read_device_info_run data com_port p Hport).
  assert (Hrun : connect_attempts float_repr new_client com_port false 2
                   (cleared p)
                 = (body, after_close p3)).
  { rewrite (connect_attempts_S com_port false 1 (cleared p) Hhead), Hfirst.
    unfold probe_step at 1.
    destruct (jbd_close (probe_device p1)) as [closing d2] eqn:Hc1.
    cbn [fst] in Hclose1. subst closing.
    replace {| probe_device := d2; probe_calls := probe_calls p1 ++ [Pclose];
               serial_ports := serial_ports p1; device_info := device_info p1;
               com_ports_list := com_ports_list p1;
               default_com_port := default_com_port p1 |}
      with (after_close p1) by (unfold after_close; now rewrite Hc1).
    rewrite (connect_attempts_S com_port true 0 (after_close p1) Hhead),
      Hsecond.
    unfold probe_step, after_close.
    destruct (jbd_close (probe_device p3)) as [closing d4].
    cbn [fst snd] in *. subst closing.
    destruct body as [[]|e]; [reflexivity|]. now destruct e. }
  rewrite Hrun. now destruct body as [[]|e].
Qed.

(** X25. A port that the head of an attempt rejects (with the serial
    library: a port that is neither a string nor [None]) makes the probe
    raise [UnboundLocalError] for [client], not the exception of the head:
    the [finally] block reads [client] before it was assigned. No call is
    made on a client, and there is no second attempt. *)
Theorem rejected_port_raises_unbound_client (data : gmap string pyobj)
    (com_port : pyobj) (e : exn) (p : Probe D) :
  data !! CONF_PORT = Some com_port ->
  new_client com_port = Raise e ->
  connect_and_read_device_info float_repr new_client data p
  = (Raise (UnboundLocalError "client"), cleared p) /\
  probe_calls (cleared p) = probe_calls p /\
  probe_device (cleared p) = probe_device p.
Proof.
  intros Hport Hhead.
  rewrite (connect_and_read_device_info_run data com_port p Hport).
  rewrite (connect_attempts_rejected com_port e 1 (cleared p) Hhead).
  repeat split.
Qed.

(** ** The first step of the flow *)

Lemma async_step_init_run (existing : list ConfigEntry)
    (user_input : option (gmap string pyobj)) (p : Probe D) :
  async_step_init float_repr new_client existing user_input p
  = match com_ports_list p, serial_ports p with
    | None, [] =>
        (Return (InitDone (FlowAbort "no_serial_ports")), after_scan p)
    | _, _ =>
        match user_input with
        | None => (Return (InitDone (FlowForm "init" ∅)), before_probe p)
        | Some input =>
            match port_already_configured existing input with
            | Raise e => (Raise e, before_probe p)
            | Return true =>
                (Return (InitDone (FlowAbort "port_already_configured")),
                 before_probe p)
            | Return false =>
                match connect_and_read_device_info float_repr new_client input
                        (before_probe p) with
                | (Return info, p') =>
                    (Return (InitSerialNumberStep (input ∪ info)), p')
                | (Raise (SerialException errno), p') =>
                    (Return (init_form_with
                               (if errno =? 19 then "invalid_serial_port"
                                else "cannot_open_serial_port")), p')
                | (Raise BMSError, p') =>
                    (Return (init_form_with "cannot_connect"), p')
                | (Raise e, p') => (Raise e, p')
                end
            end
        end
    end.
Proof.
  unfold async_step_init, pbind, ensure_com_ports, before_probe, after_scan,
    plift, pret, init_form_with.
  destruct (com_ports_list p) as [ports|];
    [|destruct (serial_ports p) as [|first rest]; [reflexivity|]];
    (destruct user_input as [input|]; [|reflexivity]);
    now destruct (port_already_configured existing input) as [[|]|e].
Qed.

Lemma ports_available_run (p : Probe D) :
  ports_available p ->
  forall (A : Type) (a b : A),
    match com_ports_list p, serial_ports p with
    | None, [] => a
    | _, _ => b
    end = b.
Proof.
  unfold ports_available. intros Hports A a b.
  destruct (com_ports_list p); [reflexivity|].
  destruct (serial_ports p); [now destruct Hports|reflexivity].
Qed.

Lemma port_already_configured_found (existing : list ConfigEntry)
    (input : gmap string pyobj) (selected : string) (e : ConfigEntry) :
  input !! CONF_PORT = Some (OStr selected) ->
  In e existing -> port (data e) = selected ->
  port_already_configured existing input = Return true.
Proof.
  intros Hin He Hport.
  induction existing as [|e' rest IH]; [destruct He|].
  cbn [port_already_configured]. unfold getitem. rewrite Hin. cbn [obind str_eq].
  destruct (String.eqb_spec (port (data e')) selected) as [Heq|Hne];
    [reflexivity|].
  destruct He as [->|He]; [contradiction|]. now apply IH.
Qed.

(** Frame of a probe: it never scans and leaves the cache of ports alone. *)
Lemma connect_and_read_device_info_frame (input : gmap string pyobj)
    (q : Probe D) :
  com_ports_list (snd (connect_and_read_device_info float_repr new_client input q))
  = com_ports_list q /\
  default_com_port (snd (connect_and_read_device_info float_repr new_client input q))
  = default_com_port q /\
  exists t,
    probe_calls (snd (connect_and_read_device_info float_repr new_client input q))
    = probe_calls q ++ t /\
    Forall (fun c => c <> Pscan) t.
Proof.
  destruct (input !! CONF_PORT) as [com_port|] eqn:Hport.
  2: { unfold connect_and_read_device_info, pbind, plift, getitem.
       rewrite Hport. cbn [fst snd].
       split; [reflexivity|]. split; [reflexivity|].
       exists []. now rewrite app_nil_r. }
  rewrite (connect_and_read_device_info_run input com_port q Hport).
  destruct (new_client com_port) as [[]|e0] eqn:Hhead.
  2: { rewrite (connect_attempts_rejected com_port e0 1 (cleared q) Hhead).
       cbn [fst snd cleared probe_calls com_ports_list default_com_port].
       split; [reflexivity|]. split; [reflexivity|].
       exists []. now rewrite app_nil_r. }
  destruct (connect_attempts_run com_port false 1 (cleared q) Hhead)
    as ((ts & Hts & Hall & _) & _ & _ & Hcl & Hdp & _).
  cbn [fst snd cleared probe_calls com_ports_list default_com_port] in *.
  split; [exact Hcl|]. split; [exact Hdp|].
  exists (concat ts). split; [exact Hts|].
  apply Forall_concat. eapply Forall_impl; [exact Hall|].
  intros t (reads & -> & Hreads).
  destruct Hreads as [-> | [-> | [-> | ->]]];
    repeat constructor; discriminate.
Qed.

(** X20. Without a serial port on the host the first step aborts with
    [no_serial_ports], whatever was submitted; no device is touched, and
    nothing is cached, so that the next call scans again. *)
Theorem no_serial_ports_aborts (existing : list ConfigEntry)
    (user_input : option (gmap string pyobj)) (p : Probe D) :
  com_ports_list p = None ->
  serial_ports p = [] ->
  async_step_init float_repr new_client existing user_input p
  = (Return (InitDone (FlowAbort "no_serial_ports")), after_scan p) /\
  com_ports_list (after_scan p) = None /\
  probe_device (after_scan p) = probe_device p.
Proof.
  intros Hnone Hports. rewrite async_step_init_run, Hnone, Hports.
  split; [reflexivity|]. unfold after_scan. now rewrite Hports.
Qed.

(** X21. Selecting a port that a configured entry already uses aborts with
    [port_already_configured] before the device is probed: no client call
    is made. *)
Theorem configured_port_aborts_before_probe (existing : list ConfigEntry)
    (input : gmap string pyobj) (selected : string) (e : ConfigEntry)
    (p : Probe D) :
  ports_available p ->
  input !! CONF_PORT = Some (OStr selected) ->
  In e existing -> port (data e) = selected ->
  async_step_init float_repr new_client existing (Some input) p
  = (Return (InitDone (FlowAbort "port_already_configured")), before_probe p)
  /\ probe_device (before_probe p) = probe_device p
  /\ (probe_calls (before_probe p) = probe_calls p \/
      probe_calls (before_probe p) = probe_calls p ++ [Pscan]).
Proof.
  intros Hports Hin He Hport.
  rewrite async_step_init_run, (ports_available_run p Hports).
  rewrite (port_already_configured_found existing input selected e Hin He Hport).
  split; [reflexivity|].
  unfold before_probe, after_scan. destruct (com_ports_list p); [auto|].
  cbn [probe_device probe_calls]. auto.
Qed.

Lemma before_probe_device (p : Probe D) :
  probe_device (before_probe p) = probe_device p.
Proof. unfold before_probe. now destruct (com_ports_list p). Qed.

(** The body of an attempt when [open] raises: nothing is read. *)
Lemma read_device_info_open_fails (com_port : pyobj) (p : Probe D) (e : exn)
    (d1 : D) :
  new_client com_port = Return tt ->
  jbd_open (probe_device p) = (Raise e, d1) ->
  read_device_info float_repr new_client com_port p
  = (Raise e, after_call_on p (Popen com_port) d1).
Proof.
  intros Hhead Hopen. unfold read_device_info.
  rewrite pbind_run. unfold plift at 1. rewrite Hhead.
  rewrite pbind_run. unfold probe_step at 1. now rewrite Hopen.
Qed.

(** X22. A port that cannot be opened makes the first step show its form
    again instead of aborting: when the port is free and accepted by the
    head of an attempt, and [open] raises [SerialException], the step makes
    one attempt ([open], then [close]) and returns the form with the error
    [invalid_serial_port] for errno 19 and [cannot_open_serial_port] for any
    other errno. *)
Theorem unopenable_port_shows_form_again (existing : list ConfigEntry)
    (input : gmap string pyobj) (com_port : pyobj) (p : Probe D) (errno : Z)
    (d1 : D) :
  ports_available p ->
  port_already_configured existing input = Return false ->
  input !! CONF_PORT = Some com_port ->
  new_client com_port = Return tt ->
  jbd_open (probe_device p) = (Raise (SerialException errno), d1) ->
  fst (jbd_close d1) = Return tt ->
  let r := async_step_init float_repr new_client existing (Some input) p in
  fst r = Return (init_form_with (if errno =? 19 then "invalid_serial_port"
                                  else "cannot_open_serial_port")) /\
  probe_calls (snd r)
  = probe_calls (before_probe p) ++ [Popen com_port; Pclose].
Proof.
  intros Hports Hfree Hport Hhead Hopen Hclose. cbv zeta.
  rewrite async_step_init_run, (ports_available_run p Hports), Hfree.
  rewrite (connect_and_read_device_info_run input com_port _ Hport).
  assert (Hrun : connect_attempts float_repr new_client com_port false 2
                   (cleared (before_probe p))
                 = (Raise (SerialException errno),
                    after_close (after_call_on (cleared (before_probe p))
                                   (Popen com_port) d1))).
  { assert (Hopen' : jbd_open (probe_device (cleared (before_probe p)))
                     = (Raise (SerialException errno), d1))
      by (cbn [cleared probe_device]; now rewrite before_probe_device).
    rewrite (connect_attempts_S com_port false 1 _ Hhead).
    rewrite (read_device_info_open_fails com_port _ _ d1 Hhead Hopen').
    unfold probe_step, after_close. cbn [after_call_on probe_device].
    destruct (jbd_close d1) as [closing d2]. cbn [fst snd] in *.
    now subst closing. }
  rewrite Hrun. cbn [fst snd].
  split; [reflexivity|].
  cbn [after_close after_call_on cleared probe_calls].
  now rewrite <- app_assoc.
Qed.

(** X26. A device that does not answer makes the first step show its form
    again with [cannot_connect], after exactly two attempts: when the port
    is free and accepted by the head of an attempt, and [open] raises the
    communication error in both attempts, the calls are [open], [close],
    [open], [close]. *)
Theorem silent_device_shows_cannot_connect (existing : list ConfigEntry)
    (input : gmap string pyobj) (com_port : pyobj) (p : Probe D)
    (d1 d2 d3 : D) :
  ports_available p ->
  port_already_configured existing input = Return false ->
  input !! CONF_PORT = Some com_port ->
  new_client com_port = Return tt ->
  jbd_open (probe_device p) = (Raise BMSError, d1) ->
  jbd_close d1 = (Return tt, d2) ->
  jbd_open d2 = (Raise BMSError, d3) ->
  fst (jbd_close d3) = Return tt ->
  let r := async_step_init float_repr new_client existing (Some input) p in
  fst r = Return (init_form_with "cannot_connect") /\
  probe_calls (snd r)
  = probe_calls (before_probe p)
    ++ [Popen com_port; Pclose; Popen com_port; Pclose].
Proof.
  intros Hports Hfree Hport Hhead Hopen1 Hclose1 Hopen2 Hclose2. cbv zeta.
  rewrite async_step_init_run, (ports_available_run p Hports), Hfree.
  rewrite (connect_and_read_device_info_run input com_port _ Hport).
  assert (Hrun : connect_attempts float_repr new_client com_port false 2
                   (cleared (before_probe p))
                 = (Raise BMSError,
                    after_close
                      (after_call_on
                         (after_close
                            (after_call_on (cleared (before_probe p))
                               (Popen com_port) d1))
                         (Popen com_port) d3))).
  { assert (Hopen1' : jbd_open (probe_device (cleared (before_probe p)))
                      = (Raise BMSError, d1))
      by (cbn [cleared probe_device]; now rewrite before_probe_device).
    rewrite (connect_attempts_S com_port false 1 _ Hhead).
    rewrite (read_device_info_open_fails com_port _ _ d1 Hhead Hopen1').
    unfold probe_step at 1. cbn [after_call_on probe_device].
    rewrite Hclose1.
    match goal with |- context [connect_attempts _ _ _ _ _ ?q] =>
      replace q with (after_close (after_call_on (cleared (before_probe p))
                                     (Popen com_port) d1))
        by (unfold after_close; cbn [after_call_on probe_device probe_calls
                                     serial_ports device_info com_ports_list
                                     default_com_port];
            now rewrite Hclose1) end.
    rewrite (connect_attempts_S com_port true 0 _ Hhead).
    assert (Hopen2' : jbd_open
                        (probe_device
                           (after_close
                              (after_call_on (cleared (before_probe p))
                                 (Popen com_port) d1)))
                      = (Raise BMSError, d3))
      by (unfold after_close; cbn [after_call_on probe_device];
          now rewrite Hclose1).
    rewrite (read_device_info_open_fails com_port _ _ d3 Hhead Hopen2').
    unfold probe_step. cbn [after_call_on probe_device].
    destruct (jbd_close d3) as [closing d4] eqn:Hclose3.
    cbn [fst] in Hclose2. subst closing.
    symmetry. unfold after_close at 1. cbn [after_call_on probe_device].
    now rewrite Hclose3. }
  rewrite Hrun. cbn [fst snd].
  split; [reflexivity|].
  cbn [after_close after_call_on cleared probe_calls].
  now rewrite <- !app_assoc.
Qed.

(** X23. The ports are scanned once per flow: a step that finds the cache filled
    never scans and leaves the cache as it is, and a step without a cache
    fills it with the ports of the host and their first one. *)
Theorem ports_are_scanned_once (existing : list ConfigEntry)
    (user_input : option (gmap string pyobj)) (p : Probe D) :
  let r := async_step_init float_repr new_client existing user_input p in
  match com_ports_list p with
  | Some ports =>
      com_ports_list (snd r) = Some ports /\
      default_com_port (snd r) = default_com_port p /\
      exists t, probe_calls (snd r) = probe_calls p ++ t /\
                Forall (fun c => c <> Pscan) t
  | None =>
      com_ports_list (snd r) = fst (scan_comports (serial_ports p)) /\
      default_com_port (snd r) = snd (scan_comports (serial_ports p))
  end.
Proof.
  cbv zeta. rewrite async_step_init_run.
  assert (Hnil : forall q : Probe D,
            exists t : list probe_call,
              probe_calls q = probe_calls q ++ t /\
              Forall (fun c => c <> Pscan) t).
  { intros q. exists []. now rewrite app_nil_r. }
  assert (Hrest : forall input,
    let r := match connect_and_read_device_info float_repr new_client input
                     (before_probe p) with
             | (Return info, p') =>
                 (Return (InitSerialNumberStep (input ∪ info)), p')
             | (Raise (SerialException errno), p') =>
                 (Return (init_form_with
                            (if errno =? 19 then "invalid_serial_port"
                             else "cannot_open_serial_port")), p')
             | (Raise BMSError, p') =>
                 (Return (init_form_with "cannot_connect"), p')
             | (Raise e, p') => (Raise e, p')
             end in
    com_ports_list (snd r) = com_ports_list (before_probe p) /\
    default_com_port (snd r) = default_com_port (before_probe p) /\
    exists t, probe_calls (snd r) = probe_calls (before_probe p) ++ t /\
              Forall (fun c => c <> Pscan) t).
  { intros input. cbv zeta.
    pose proof (connect_and_read_device_info_frame input (before_probe p))
      as Hframe.
    destruct (connect_and_read_device_info float_repr new_client input (before_probe p))
      as [[info|e] q']; [exact Hframe|].
    now destruct e. }
  assert (Hall : forall q : outcome InitResult * Probe D,
    (q.2 = before_probe p \/
     exists input,
       q = match connect_and_read_device_info float_repr new_client input
                   (before_probe p) with
           | (Return info, p') =>
               (Return (InitSerialNumberStep (input ∪ info)), p')
           | (Raise (SerialException errno), p') =>
               (Return (init_form_with
                          (if errno =? 19 then "invalid_serial_port"
                           else "cannot_open_serial_port")), p')
           | (Raise BMSError, p') =>
               (Return (init_form_with "cannot_connect"), p')
           | (Raise e, p') => (Raise e, p')
           end) ->
    com_ports_list (snd q) = com_ports_list (before_probe p) /\
    default_com_port (snd q) = default_com_port (before_probe p) /\
    exists t, probe_calls (snd q) = probe_calls (before_probe p) ++ t /\
              Forall (fun c => c <> Pscan) t).
  { intros q [-> | [input ->]]; [|apply Hrest].
    split; [reflexivity|]. split; [reflexivity|]. apply Hnil. }
  assert (Hsel : forall q : outcome InitResult * Probe D,
    q = match user_input with
        | None => (Return (InitDone (FlowForm "init" ∅)), before_probe p)
        | Some input =>
            match port_already_configured existing input with
            | Raise e => (Raise e, before_probe p)
            | Return true =>
                (Return (InitDone (FlowAbort "port_already_configured")),
                 before_probe p)
            | Return false =>
                match connect_and_read_device_info float_repr new_client input
                        (before_probe p) with
                | (Return info, p') =>
                    (Return (InitSerialNumberStep (input ∪ info)), p')
                | (Raise (SerialException errno), p') =>
                    (Return (init_form_with
                               (if errno =? 19 then "invalid_serial_port"
                                else "cannot_open_serial_port")), p')
                | (Raise BMSError, p') =>
                    (Return (init_form_with "cannot_connect"), p')
                | (Raise e, p') => (Raise e, p')
                end
            end
        end ->
    com_ports_list (snd q) = com_ports_list (before_probe p) /\
    default_com_port (snd q) = default_com_port (before_probe p) /\
    exists t, probe_calls (snd q) = probe_calls (before_probe p) ++ t /\
              Forall (fun c => c <> Pscan) t).
  { intros q ->. apply Hall.
    destruct user_input as [input|]; [|now left].
    destruct (port_already_configured existing input) as [[|]|e];
      [now left | right; now exists input | now left]. }
  destruct (com_ports_list p) as [ports|] eqn:Hcache.
  - specialize (Hsel _ eq_refl). unfold before_probe in Hsel.
    rewrite Hcache in Hsel. unfold before_probe. rewrite Hcache.
    destruct Hsel as (Hcl & Hdp & Ht). rewrite Hcl, Hdp. auto.
  - destruct (serial_ports p) as [|first rest] eqn:Hports.
    + cbn [snd]. unfold after_scan. rewrite Hports. auto.
    + specialize (Hsel _ eq_refl). unfold before_probe in Hsel.
      rewrite Hcache in Hsel. unfold before_probe. rewrite Hcache.
      destruct Hsel as (Hcl & Hdp & _). rewrite Hcl, Hdp.
      unfold after_scan. cbn [com_ports_list default_com_port].
      now rewrite Hports.
Qed.

(** X24. The serial-number step is entered only from a probe that returned: the
    [init_info] it receives holds the port the user selected and the four
    entries of the device information. *)
Theorem serial_number_step_gets_complete_info (existing : list ConfigEntry)
    (user_input : option (gmap string pyobj)) (p : Probe D)
    (flow_init_info : gmap string pyobj) :
  fst (async_step_init float_repr new_client existing user_input p)
  = Return (InitSerialNumberStep flow_init_info) ->
  exists input com_port info,
    user_input = Some input /\
    input !! CONF_PORT = Some com_port /\
    port_already_configured existing input = Return false /\
    fst (connect_and_read_device_info float_repr new_client input (before_probe p))
    = Return info /\
    dom info = device_info_keys /\
    flow_init_info = input ∪ info /\
    flow_init_info !! CONF_PORT = Some com_port /\
    device_info_keys ⊆ dom flow_init_info.
Proof.
  rewrite async_step_init_run.
  intros Hstep.
  assert (Hsel : fst match user_input with
        | None => (Return (InitDone (FlowForm "init" ∅)), before_probe p)
        | Some input =>
            match port_already_configured existing input with
            | Raise e => (Raise e, before_probe p)
            | Return true =>
                (Return (InitDone (FlowAbort "port_already_configured")),
                 before_probe p)
            | Return false =>
                match connect_and_read_device_info float_repr new_client input
                        (before_probe p) with
                | (Return info, p') =>
                    (Return (InitSerialNumberStep (input ∪ info)), p')
                | (Raise (SerialException errno), p') =>
                    (Return (init_form_with
                               (if errno =? 19 then "invalid_serial_port"
                                else "cannot_open_serial_port")), p')
                | (Raise BMSError, p') =>
                    (Return (init_form_with "cannot_connect"), p')
                | (Raise e, p') => (Raise e, p')
                end
            end
        end = Return (InitSerialNumberStep flow_init_info)).
  { destruct (com_ports_list p); [exact Hstep|].
    destruct (serial_ports p); [discriminate Hstep | exact Hstep]. }
  clear Hstep.
  destruct user_input as [input|]; [|discriminate].
  destruct (port_already_configured existing input) as [[|]|e] eqn:Hfree;
    try discriminate.
  destruct (input !! CONF_PORT) as [com_port|] eqn:Hport.
  2: { revert Hsel. unfold connect_and_read_device_info, pbind, plift, getitem.
       rewrite Hport. discriminate. }
  pose proof (probe_attempts_are_bracketed_aux input com_port (before_probe p)
                Hport) as Hinfo.
  destruct (connect_and_read_device_info float_repr new_client input (before_probe p))
    as [[info|e] p'] eqn:Hprobe; cbn [fst snd] in *.
  - injection Hsel as <-. destruct (Hinfo info eq_refl) as [_ Hdom].
    exists input, com_port, info.
    split; [reflexivity|]. split; [exact Hport|].
    split; [first [reflexivity | exact Hfree]|].
    split; [first [reflexivity | now rewrite Hprobe]|].
    split; [exact Hdom|]. split; [reflexivity|].
    split; [apply lookup_union_Some_l; exact Hport|].
    rewrite dom_union_L, Hdom. apply union_subseteq_r.
  - destruct e; discriminate.
Qed.

End ProbeProperties.

(** ** The probe on the bench *)

Lemma probe_attempts_are_bracketed_on_bench :
  let r := connect_and_read_device_info Bench.float_repr Bench.new_client
             (Bench.form usb0) sleeping_probe in
  (exists ts,
     probe_calls (snd r) = probe_calls sleeping_probe ++ concat ts /\
     Forall (attempt_trace (OStr usb0)) ts /\
     (1 <= length ts <= 2)%nat) /\
  (exists d, probe_device (snd r) = snd (jbd_close d)) /\
  (forall info, fst r = Return info ->
     info = device_info (snd r) /\ dom info = device_info_keys).
Proof.
  apply (probe_attempts_are_bracketed Bench.float_repr Bench.new_client
           (Bench.form usb0) (OStr usb0) sleeping_probe); reflexivity.
Defined.

Lemma other_errors_are_not_retried_on_bench :
  let first := read_device_info Bench.float_repr Bench.new_client (OStr usb0)
                 (cleared unplugged_probe) in
  connect_and_read_device_info Bench.float_repr Bench.new_client
    (Bench.form usb0) unplugged_probe
  = (Raise (SerialException 19), after_close (snd first)) /\
  probe_calls (after_close (snd first)) = [Popen (OStr usb0); Pclose].
Proof.
  split; [|reflexivity].
  apply (other_errors_are_not_retried Bench.float_repr Bench.new_client
           (Bench.form usb0) (OStr usb0) unplugged_probe);
    [reflexivity | reflexivity | vm_compute; reflexivity | discriminate
    | reflexivity].
Defined.

Lemma second_attempt_decides_on_bench :
  let first := read_device_info Bench.float_repr Bench.new_client (OStr usb0)
                 (cleared sleeping_probe) in
  let second := read_device_info Bench.float_repr Bench.new_client (OStr usb0)
                  (after_close (snd first)) in
  connect_and_read_device_info Bench.float_repr Bench.new_client
    (Bench.form usb0) sleeping_probe
  = (Return (device_info (snd second)), after_close (snd second)) /\
  probe_calls (after_close (snd second))
  = [Popen (OStr usb0); Pclose;
     Popen (OStr usb0); PreadReg JBD_REG_SERIAL_NUM; PreadBasicInfo;
     PreadReg JBD_REG_DEVICE_NAME; Pclose].
Proof.
  split; [|reflexivity].
  apply (second_attempt_decides Bench.float_repr Bench.new_client
           (Bench.form usb0) (OStr usb0) sleeping_probe
           (snd (read_device_info Bench.float_repr Bench.new_client
                   (OStr usb0) (cleared sleeping_probe)))
           _ (Return tt)); vm_compute; reflexivity.
Defined.

Lemma rejected_port_raises_unbound_client_on_bench :
  let data : gmap string pyobj := {[ CONF_PORT := ONum (VInt 5) ]} in
  connect_and_read_device_info Bench.float_repr Bench.new_client data
    healthy_probe
  = (Raise (UnboundLocalError "client"), cleared healthy_probe) /\
  probe_calls (cleared healthy_probe) = probe_calls healthy_probe /\
  probe_device (cleared healthy_probe) = probe_device healthy_probe.
Proof.
  apply (rejected_port_raises_unbound_client Bench.float_repr Bench.new_client
           {[ CONF_PORT := ONum (VInt 5) ]} (ONum (VInt 5)) ValueError
           healthy_probe); reflexivity.
Defined.

Lemma no_serial_ports_aborts_on_bench :
  async_step_init Bench.float_repr Bench.new_client [] (Some (Bench.form usb0))
    no_ports_probe
  = (Return (InitDone (FlowAbort "no_serial_ports")),
     after_scan no_ports_probe) /\
  com_ports_list (after_scan no_ports_probe) = None /\
  probe_device (after_scan no_ports_probe) = probe_device no_ports_probe.
Proof.
  apply (no_serial_ports_aborts Bench.float_repr Bench.new_client []
           (Some (Bench.form usb0)) no_ports_probe); reflexivity.
Defined.

Lemma configured_port_aborts_before_probe_on_bench :
  async_step_init Bench.float_repr Bench.new_client [entry_on_port usb0]
    (Some (Bench.form usb0)) healthy_probe
  = (Return (InitDone (FlowAbort "port_already_configured")),
     before_probe healthy_probe) /\
  probe_device (before_probe healthy_probe) = probe_device healthy_probe /\
  (probe_calls (before_probe healthy_probe) = probe_calls healthy_probe \/
   probe_calls (before_probe healthy_probe)
   = probe_calls healthy_probe ++ [Pscan]).
Proof.
  apply (configured_port_aborts_before_probe Bench.float_repr Bench.new_client
           [entry_on_port usb0] (Bench.form usb0) usb0 (entry_on_port usb0)
           healthy_probe);
    [discriminate | reflexivity | now left | reflexivity].
Defined.

Lemma unopenable_port_shows_form_again_on_bench :
  let r := async_step_init Bench.float_repr Bench.new_client []
             (Some (Bench.form usb0)) unplugged_probe in
  fst r = Return (init_form_with "invalid_serial_port") /\
  probe_calls (snd r)
  = probe_calls (before_probe unplugged_probe) ++ [Popen (OStr usb0); Pclose].
Proof.
  apply (unopenable_port_shows_form_again Bench.float_repr Bench.new_client []
           (Bench.form usb0) (OStr usb0) unplugged_probe 19
           {| Bench.bench_faults := []; Bench.bench_serial := 0 |});
    [discriminate | reflexivity | reflexivity | reflexivity | reflexivity
    | reflexivity].
Defined.

Lemma silent_device_shows_cannot_connect_on_bench :
  let r := async_step_init Bench.float_repr Bench.new_client []
             (Some (Bench.form usb0)) dead_probe in
  fst r = Return (init_form_with "cannot_connect") /\
  probe_calls (snd r)
  = probe_calls (before_probe dead_probe)
    ++ [Popen (OStr usb0); Pclose; Popen (OStr usb0); Pclose].
Proof.
  apply (silent_device_shows_cannot_connect Bench.float_repr Bench.new_client
           [] (Bench.form usb0) (OStr usb0) dead_probe
           {| Bench.bench_faults := [Some BMSError]; Bench.bench_serial := 0 |}
           {| Bench.bench_faults := [Some BMSError]; Bench.bench_serial := 0 |}
           {| Bench.bench_faults := []; Bench.bench_serial := 0 |});
    [discriminate | reflexivity | reflexivity | reflexivity | reflexivity
    | reflexivity | reflexivity | reflexivity].
Defined.

Lemma serial_number_step_gets_complete_info_on_bench :
  exists input com_port info,
    Some (Bench.form usb0) = Some input /\
    input !! CONF_PORT = Some com_port /\
    port_already_configured [] input = Return false /\
    fst (connect_and_read_device_info Bench.float_repr Bench.new_client input
           (before_probe sleeping_probe)) = Return info /\
    dom info = device_info_keys /\
    (Bench.form usb0 ∪ device_info
       (snd (async_step_init Bench.float_repr Bench.new_client []
               (Some (Bench.form usb0)) sleeping_probe)))
    = input ∪ info /\
    (Bench.form usb0 ∪ device_info
       (snd (async_step_init Bench.float_repr Bench.new_client []
               (Some (Bench.form usb0)) sleeping_probe))) !! CONF_PORT
    = Some com_port /\
    device_info_keys
    ⊆ dom (Bench.form usb0 ∪ device_info
             (snd (async_step_init Bench.float_repr Bench.new_client []
                     (Some (Bench.form usb0)) sleeping_probe))).
Proof.
  apply (serial_number_step_gets_complete_info Bench.float_repr
           Bench.new_client [] (Some (Bench.form usb0)) sleeping_probe).
  vm_compute. reflexivity.
Defined.
